(** * The date and time picker of errands/widgets/components.py

    The [DateTime] widget keeps a time stamp string, recomputes it from two
    spin buttons and a calendar, and announces changes through the [changed]
    signal unless [lock_signals] is set.  The widget is embedded as a record
    of its attributes with explicit state passing; the Python builtins and
    the toolkit calls it relies on are modelled next to it. *)

From Stdlib Require Import ZArith String Ascii List Bool Lia DecimalString.
Import ListNotations.

Local Open Scope string_scope.
Local Open Scope Z_scope.

(** ** Python builtins used by the widget *)

Module Py.

(** [s[a:b]], [s[a:]] and [s[:b]] for constant non-negative bounds; as in
    Python a bound beyond the end of the string is clipped.  Strings are
    sequences of one-byte characters. *)
Definition slice (a b : nat) (s : string) : string := substring a (b - a) s.
Definition slice_from (a : nat) (s : string) : string :=
  substring a (String.length s - a) s.
Definition slice_to (b : nat) (s : string) : string := substring 0 b s.

(** [str(n)] on an integer. *)
Definition str (n : Z) : string := NilZero.string_of_int (Z.to_int n).

(** [len(s)]. *)
Definition len (s : string) : nat := String.length s.

Definition is_digit (c : ascii) : bool :=
  let n := Z.of_N (N_of_ascii c) in (48 <=? n) && (n <=? 57).

Definition digit_of (c : ascii) : option Z :=
  if is_digit c then Some (Z.of_N (N_of_ascii c) - 48) else None.

Fixpoint int_digits (acc : Z) (s : string) : option Z :=
  match s with
  | EmptyString => Some acc
  | String c r =>
      match digit_of c with
      | Some d => int_digits (10 * acc + d) r
      | None => None
      end
  end.

(** [int(s)] in base 10 on a string of ASCII decimal digits; [None] stands
    for ValueError.  The signed, blank-padded and underscore forms that
    [int] reads as well never reach it from the widget: every argument is
    a slice of a rendered date or of a button label. *)
Definition int (s : string) : option Z :=
  match s with
  | EmptyString => None
  | _ => int_digits 0 s
  end.

(** [s.split(sep)] for a one-character separator. *)
Fixpoint split_acc (sep : ascii) (cur : string) (s : string) : list string :=
  match s with
  | EmptyString => [cur]
  | String c r =>
      if Ascii.eqb c sep then cur :: split_acc sep EmptyString r
      else split_acc sep (cur ++ String c EmptyString) r
  end.
Definition split (sep : ascii) (s : string) : list string :=
  split_acc sep EmptyString s.

(** ["%0<w>d"]: left padding with zeros up to width [w]. *)
Fixpoint zeros (n : nat) : string :=
  match n with
  | O => EmptyString
  | S k => String "0" (zeros k)
  end.
Definition zfill (w : nat) (s : string) : string :=
  zeros (w - String.length s) ++ s.

(** A [datetime.datetime] value, with the fields the widget reads (the
    microsecond, tzinfo and fold never reach a format it uses). *)
Record datetime : Type := mk_datetime {
  year : Z; month : Z; day : Z; hour : Z; minute : Z; second : Z
}.

Definition is_leap (y : Z) : bool :=
  (y mod 4 =? 0) && (negb (y mod 100 =? 0) || (y mod 400 =? 0)).

Definition days_in_month (y m : Z) : Z :=
  if m =? 2 then (if is_leap y then 29 else 28)
  else if (m =? 4) || (m =? 6) || (m =? 9) || (m =? 11) then 30
  else 31.

(** The range checks of the [datetime] constructor (MINYEAR = 1,
    MAXYEAR = 9999). *)
Definition check_date_fields (y m d : Z) : bool :=
  (1 <=? y) && (y <=? 9999) && (1 <=? m) && (m <=? 12) &&
  (1 <=? d) && (d <=? days_in_month y m).

Definition check_time_fields (h mi s : Z) : bool :=
  (0 <=? h) && (h <=? 23) && (0 <=? mi) && (mi <=? 59) &&
  (0 <=? s) && (s <=? 59).

Definition valid (d : datetime) : bool :=
  check_date_fields (year d) (month d) (day d) &&
  check_time_fields (hour d) (minute d) (second d).

(** One directive of [strftime].  The numeric fields are rendered by the C
    library: month, day, hour, minute and second on two digits; the year
    on four digits where the library pads it ([pad_year]), and with no
    leading zeros otherwise, as glibc does for years below 1000. *)
Definition directive (pad_year : bool) (c : ascii) (d : datetime) : string :=
  if Ascii.eqb c "Y" then
    (if pad_year then zfill 4 (str (year d)) else str (year d))
  else if Ascii.eqb c "m" then zfill 2 (str (month d))
  else if Ascii.eqb c "d" then zfill 2 (str (day d))
  else if Ascii.eqb c "H" then zfill 2 (str (hour d))
  else if Ascii.eqb c "M" then zfill 2 (str (minute d))
  else if Ascii.eqb c "S" then zfill 2 (str (second d))
  else String "%" (String c EmptyString).

(** [d.strftime(fmt)] for the numeric directives above; every other
    character of the format is copied. *)
Fixpoint strftime (pad_year : bool) (fmt : string) (d : datetime) : string :=
  match fmt with
  | EmptyString => EmptyString
  | String c r =>
      if Ascii.eqb c "%" then
        match r with
        | EmptyString => String c EmptyString
        | String k r' => directive pad_year k d ++ strftime pad_year r' d
        end
      else String c (strftime pad_year r d)
  end.

(** [d + datetime.timedelta(1)]: the same time of day on the next
    calendar day; [None] stands for the OverflowError past 9999-12-31. *)
Definition add_one_day (d : datetime) : option datetime :=
  if day d <? days_in_month (year d) (month d) then
    Some (mk_datetime (year d) (month d) (day d + 1) (hour d) (minute d) (second d))
  else if month d <? 12 then
    Some (mk_datetime (year d) (month d + 1) 1 (hour d) (minute d) (second d))
  else if year d <? 9999 then
    Some (mk_datetime (year d + 1) 1 1 (hour d) (minute d) (second d))
  else None.

(** Exactly [n] decimal digits. *)
Definition parse_digits (n : nat) (s : string) : option Z :=
  if Nat.eqb (len s) n then int s else None.

(** The separator search, date part and time part of
    [datetime.fromisoformat] (CPython 3.11) for calendar dates in basic
    ([YYYYMMDD]) or extended ([YYYY-MM-DD]) form, alone or followed by one
    separator character and a time [HH[[:]MM[[:]SS]]].  [None] stands for
    ValueError.  Week dates, digits of a fraction after the seconds and
    UTC offsets, which the library reads as well, lie outside this
    fragment: the widget itself is parametric in the parser, and this one
    serves where a time stamp rendered by [strftime] is read back. *)
Definition find_isoformat_datetime_separator (dtstr : string) : option nat :=
  if Nat.eqb (len dtstr) 7 then Some 7%nat
  else if String.eqb (slice 4 5 dtstr) "-" then
    if String.eqb (slice 5 6 dtstr) "W" then None else Some 10%nat
  else if String.eqb (slice 4 5 dtstr) "W" then None
  else Some 8%nat.

Definition parse_isoformat_date (dtstr : string) : option (Z * Z * Z) :=
  match parse_digits 4 (slice 0 4 dtstr) with
  | None => None
  | Some y =>
      let has_sep := String.eqb (slice 4 5 dtstr) "-" in
      let pos := (4 + if has_sep then 1 else 0)%nat in
      if String.eqb (slice pos (pos + 1) dtstr) "W" then None
      else
        match parse_digits 2 (slice pos (pos + 2) dtstr) with
        | None => None
        | Some m =>
            let pos := (pos + 2)%nat in
            if negb (Bool.eqb (String.eqb (slice pos (pos + 1) dtstr) "-") has_sep)
            then None
            else
              let pos := (pos + if has_sep then 1 else 0)%nat in
              match parse_digits 2 (slice pos (pos + 2) dtstr) with
              | None => None
              | Some d => Some (y, m, d)
              end
        end
  end.

Definition parse_hh_mm_ss (tstr : string) : option (Z * Z * Z) :=
  let len_str := len tstr in
  match parse_digits 2 (slice 0 2 tstr) with
  | None => None
  | Some h =>
      let next_char := slice 2 3 tstr in
      let has_sep := String.eqb next_char ":" in
      if String.eqb next_char "" then Some (h, 0, 0)
      else
        let pos := (2 + if has_sep then 1 else 0)%nat in
        match parse_digits 2 (slice pos (pos + 2) tstr) with
        | None => None
        | Some mi =>
            let pos := (pos + 2)%nat in
            let next_char := slice pos (pos + 1) tstr in
            if String.eqb next_char "" then Some (h, mi, 0)
            else if has_sep && negb (String.eqb next_char ":") then None
            else
              let pos := (pos + if has_sep then 1 else 0)%nat in
              match parse_digits 2 (slice pos (pos + 2) tstr) with
              | None => None
              | Some s =>
                  if (pos + 2 <? len_str)%nat then None
                  else Some (h, mi, s)
              end
        end
  end.

Definition fromisoformat (date_string : string) : option datetime :=
  if (len date_string <? 7)%nat then None
  else
    match find_isoformat_datetime_separator date_string with
    | None => None
    | Some separator_location =>
        let dstr := slice 0 separator_location date_string in
        let tstr := slice_from (separator_location + 1) date_string in
        match parse_isoformat_date dstr with
        | None => None
        | Some (y, m, d) =>
            match (if (separator_location <? len date_string)%nat
                   then parse_hh_mm_ss tstr
                   else Some (0, 0, 0)) with
            | None => None
            | Some (h, mi, s) =>
                if check_date_fields y m d && check_time_fields h mi s
                then Some (mk_datetime y m d h mi s)
                else None
            end
        end
    end.

End Py.

(** ** The host toolkit *)

Module GLib.

(** A [GLib.DateTime] as the calendar holds it.  The widget builds these
    at midnight or from the clock and only ever reads the day back. *)
Record date_time : Type := mk_date_time {
  get_year : Z; get_month : Z; get_day_of_month : Z
}.

Definition eqb (a b : date_time) : bool :=
  (get_year a =? get_year b) && (get_month a =? get_month b) &&
  (get_day_of_month a =? get_day_of_month b).

(** [GLib.DateTime.new_local(y, m, d, 0, 0, 0)]; [None] is the null
    result for a day outside the calendar. *)
Definition new_local (y m d : Z) : option date_time :=
  if Py.check_date_fields y m d then Some (mk_date_time y m d) else None.

(** [GLib.DateTime.new_now_local()] when the clock reads [now]. *)
Definition new_now_local (now : Py.datetime) : date_time :=
  mk_date_time (Py.year now) (Py.month now) (Py.day now).

End GLib.

Module Gtk.

(** The value a [Gtk.Adjustment] with the given bounds keeps when asked
    to hold [v]. *)
Definition clamp (lower upper v : Z) : Z :=
  if upper <? v then upper else if v <? lower then lower else v.

End Gtk.

(** What the widget takes from its host: the message catalogue behind
    [_()], the C library behind [strftime], GLib's rendering of a date by
    a pattern, and whether [Gtk.Calendar.select_day] announces
    [day-selected] again when the day it is given is already selected. *)
Class Platform : Type := {
  gettext : string -> string;
  strftime_pads_year : bool;
  date_time_format : GLib.date_time -> string -> string;
  select_day_reemits : bool
}.

(** ** The widget state *)

(** The attributes of a [DateTime] instance.  [hour] and [minutes] hold
    the values of the two spin buttons, [calendar] the selected day, and
    [changed] counts the emissions of the [changed] signal so far. *)
Record DateTime : Type := mk_DateTime {
  datetime : string;
  lock_signals : bool;
  hour : Z;
  minutes : Z;
  calendar : GLib.date_time;
  changed : nat
}.

Definition with_datetime (v : string) (self : DateTime) : DateTime :=
  mk_DateTime v (lock_signals self) (hour self) (minutes self)
              (calendar self) (changed self).
Definition with_lock_signals (v : bool) (self : DateTime) : DateTime :=
  mk_DateTime (datetime self) v (hour self) (minutes self)
              (calendar self) (changed self).
Definition with_hour (v : Z) (self : DateTime) : DateTime :=
  mk_DateTime (datetime self) (lock_signals self) v (minutes self)
              (calendar self) (changed self).
Definition with_minutes (v : Z) (self : DateTime) : DateTime :=
  mk_DateTime (datetime self) (lock_signals self) (hour self) v
              (calendar self) (changed self).
Definition with_calendar (v : GLib.date_time) (self : DateTime) : DateTime :=
  mk_DateTime (datetime self) (lock_signals self) (hour self) (minutes self)
              v (changed self).
Definition with_changed (v : nat) (self : DateTime) : DateTime :=
  mk_DateTime (datetime self) (lock_signals self) (hour self) (minutes self)
              (calendar self) v.

(** Methods run on the instance and either return or raise; what they
    did to the instance before raising stays done. *)
Inductive exn : Type := ValueError | OverflowError | TypeError.

Inductive outcome (A : Type) : Type :=
| Ok (a : A)
| Raise (e : exn).
Arguments Ok {A} a.
Arguments Raise {A} e.

Definition M (A : Type) : Type := DateTime -> outcome A * DateTime.

Definition ret {A : Type} (a : A) : M A := fun self => (Ok a, self).

Definition bind {A B : Type} (m : M A) (k : A -> M B) : M B :=
  fun self =>
    match m self with
    | (Ok a, self') => k a self'
    | (Raise e, self') => (Raise e, self')
    end.

Definition raise {A : Type} (e : exn) : M A := fun self => (Raise e, self).

Definition or_raise {A : Type} (e : exn) (o : option A) : M A :=
  match o with
  | Some a => ret a
  | None => raise e
  end.

Definition update (f : DateTime -> DateTime) : M unit :=
  fun self => (Ok tt, f self).

Notation "x <- m ;; k" := (bind m (fun x => k))
  (at level 61, m at next level, right associativity).
Notation "m ;; k" := (bind m (fun _ => k))
  (at level 61, right associativity).

(** The state a method leaves and what it returned. *)
Definition state_after {A : Type} (r : outcome A * DateTime) : DateTime := snd r.
Definition returned {A : Type} (r : outcome A * DateTime) : outcome A := fst r.

(** ** The methods of [DateTime] *)

Section Widget.

Context {host : Platform}.

(** [datetime.datetime.fromisoformat]; [None] stands for ValueError. *)
Variable fromisoformat : string -> option Py.datetime.

(** [DateTime()]: the class attributes and [_build_ui], with the clock
    reading [now] when the calendar is created.  The spin buttons start at
    their lower bound and the calendar on the current day. *)
Definition init (now : Py.datetime) : DateTime :=
  mk_DateTime "" true 0 0 (GLib.new_now_local now) 0.

(** [self.emit("changed")] *)
Definition emit_changed : M unit :=
  update (fun self => with_changed (S (changed self)) self).

Definition _on_date_time_changed : M unit :=
  fun self =>
    let hour := Py.str (hour self) in
    let hour := if Nat.eqb (Py.len hour) 1 then "0" ++ hour else hour in
    let min := Py.str (minutes self) in
    let min := if Nat.eqb (Py.len min) 1 then "0" ++ min else min in
    let date := date_time_format (calendar self) "%Y%m%d" in
    let self := with_datetime (date ++ "T" ++ hour ++ min ++ "00") self in
    if negb (lock_signals self) then emit_changed self else ret tt self.

(** [self.hour.set_value(v)]: the adjustment (0..23) clamps the value and
    [value-changed], connected to [_on_date_time_changed], fires when the
    value it holds changes.  A user's edit of the spin button takes the
    same path. *)
Definition hour_set_value (v : Z) : M unit :=
  fun self =>
    let v := Gtk.clamp 0 23 v in
    if v =? hour self then ret tt self
    else _on_date_time_changed (with_hour v self).

(** [self.minutes.set_value(v)], bounds 0..59. *)
Definition minutes_set_value (v : Z) : M unit :=
  fun self =>
    let v := Gtk.clamp 0 59 v in
    if v =? minutes self then ret tt self
    else _on_date_time_changed (with_minutes v self).

(** [self.calendar.select_day(d)]: [day-selected] is connected to
    [_on_date_time_changed]. *)
Definition calendar_select_day (d : GLib.date_time) : M unit :=
  fun self =>
    if GLib.eqb d (calendar self) && negb select_day_reemits then ret tt self
    else _on_date_time_changed (with_calendar d self).

Definition _on_time_preset_clicked (label : string) : M unit :=
  match Py.split ":" label with
  | [hour; min] =>
      h <- or_raise ValueError (Py.int hour) ;;
      hour_set_value h ;;
      m <- or_raise ValueError (Py.int min) ;;
      minutes_set_value m
  | _ => raise ValueError
  end.

Definition set_datetime (now : Py.datetime) (dt : string) : M unit :=
  update (with_lock_signals true) ;;
  dt <- (if negb (String.eqb dt "") then
           d <- or_raise ValueError (fromisoformat dt) ;;
           let dt := Py.strftime strftime_pads_year "%Y%m%dT%H%M00" d in
           h <- or_raise ValueError (Py.int (Py.slice 9 11 dt)) ;;
           hour_set_value h ;;
           m <- or_raise ValueError (Py.int (Py.slice 11 13 dt)) ;;
           minutes_set_value m ;;
           y <- or_raise ValueError (Py.int (Py.slice_to 4 dt)) ;;
           mo <- or_raise ValueError (Py.int (Py.slice 4 6 dt)) ;;
           dd <- or_raise ValueError (Py.int (Py.slice 6 8 dt)) ;;
           day <- or_raise TypeError (GLib.new_local y mo dd) ;;
           calendar_select_day day ;;
           ret dt
         else
           hour_set_value 0 ;;
           minutes_set_value 0 ;;
           calendar_select_day (GLib.new_now_local now) ;;
           ret dt) ;;
  (* Set datetime *)
  update (with_datetime dt) ;;
  update (with_lock_signals false).

Definition _on_now_btn_clicked (now : Py.datetime) : M unit :=
  set_datetime now (Py.strftime strftime_pads_year "%Y%m%dT%H%M00" now) ;;
  emit_changed.

Definition _on_today_btn_clicked (now : Py.datetime) : M unit :=
  set_datetime now (Py.strftime strftime_pads_year "%Y%m%dT000000" now) ;;
  emit_changed.

Definition _on_tomorrow_btn_clicked (now : Py.datetime) : M unit :=
  d <- or_raise OverflowError (Py.add_one_day now) ;;
  set_datetime now (Py.strftime strftime_pads_year "%Y%m%dT000000" d) ;;
  emit_changed.

Definition _on_clear_btn_clicked : M unit :=
  update (with_datetime "") ;;
  emit_changed.

Definition get_datetime (self : DateTime) : string := datetime self.

Definition get_human_datetime (self : DateTime) : string :=
  if negb (String.eqb (datetime self) "") then
    Py.slice 9 11 (datetime self) ++ ":" ++ Py.slice 11 13 (datetime self)
    ++ ", " ++ date_time_format (calendar self) "%d %B, %Y"
  else gettext "Not Set".

Definition get_datetime_as_int (self : DateTime) : outcome Z :=
  if negb (String.eqb (datetime self) "") then
    match Py.int (Py.slice_to 8 (datetime self) ++ Py.slice_from 9 (datetime self)) with
    | Some n => Ok n
    | None => Raise ValueError
    end
  else Ok 0.

End Widget.

(** ** Digits and stamps *)

Definition digit_char (n : Z) : ascii := ascii_of_N (Z.to_N (48 + n)).

Definition two_digits (n : Z) : string :=
  String (digit_char (n / 10)) (String (digit_char (n mod 10)) EmptyString).

Definition four_digits (n : Z) : string :=
  String (digit_char (n / 1000))
    (String (digit_char (n / 100 mod 10)) (two_digits (n mod 100))).

Definition str2 (a b : ascii) : string := String a (String b EmptyString).
Definition str4 (a b c d : ascii) : string := String a (String b (str2 c d)).

(** The fixed-width stamp [YYYYMMDDThhmm00]. *)
Definition stamp (y m d h mi : Z) : string :=
  four_digits y ++ two_digits m ++ two_digits d ++ "T"
  ++ two_digits h ++ two_digits mi ++ "00".

(** The number whose decimal digits are those of a stamp. *)
Definition stamp_number (y m d h mi : Z) : Z :=
  ((((y * 100 + m) * 100 + d) * 100 + h) * 100 + mi) * 100.

(** Where the year is rendered on four digits. *)
Definition four_digit_year (pad_year : bool) (y : Z) : Prop :=
  pad_year = true \/ 1000 <= y.

Fixpoint upto (n : nat) : list Z :=
  match n with
  | O => []
  | S k => Z.of_nat k :: upto k
  end.

(** ** Emissions *)

(** How many times [changed] is emitted when a handler connected to a
    sub-control runs ([fired]) on an instance. *)
Definition emissions (fired : bool) (self : DateTime) : nat :=
  if fired && negb (lock_signals self) then 1%nat else 0%nat.

Definition quiet {A : Type} (m : M A) : Prop :=
  forall self, lock_signals self = true ->
    lock_signals (state_after (m self)) = true /\
    changed (state_after (m self)) = changed self.

(** ** A reference host and the events of the interface *)

Definition month_name (m : Z) : string :=
  nth (Z.to_nat (m - 1))
      ["January"; "February"; "March"; "April"; "May"; "June"; "July";
       "August"; "September"; "October"; "November"; "December"] "".

(** GLib's rendering of the two patterns the widget uses. *)
Definition glib_format (d : GLib.date_time) (pattern : string) : string :=
  if String.eqb pattern "%Y%m%d" then
    Py.str (GLib.get_year d) ++ Py.zfill 2 (Py.str (GLib.get_month d))
    ++ Py.zfill 2 (Py.str (GLib.get_day_of_month d))
  else if String.eqb pattern "%d %B, %Y" then
    Py.zfill 2 (Py.str (GLib.get_day_of_month d)) ++ " "
    ++ month_name (GLib.get_month d) ++ ", " ++ Py.str (GLib.get_year d)
  else pattern.

(** A Linux desktop: untranslated messages, glibc behind [strftime], and
    a calendar that announces every selection. *)
Definition linux : Platform :=
  {| gettext := fun msg => msg;
     strftime_pads_year := false;
     date_time_format := glib_format;
     select_day_reemits := true |}.

(** The same desktop with a C library that pads the year and a calendar
    that stays silent when the selected day is selected again. *)
Definition padded : Platform :=
  {| gettext := fun msg => msg;
     strftime_pads_year := true;
     date_time_format := glib_format;
     select_day_reemits := false |}.

(** A clock reading used in the examples: 15 January 2024, 09:05:42. *)
Definition a_monday : Py.datetime := Py.mk_datetime 2024 1 15 9 5 42.

(** The four time preset buttons built in [_build_ui]. *)
Inductive time_preset : Type := Morning | Afternoon | Sunset | Night.

Definition label (b : time_preset) : string :=
  match b with
  | Morning => "09:00"
  | Afternoon => "13:00"
  | Sunset => "17:00"
  | Night => "20:00"
  end.

Definition preset_hour (b : time_preset) : Z :=
  match b with
  | Morning => 9
  | Afternoon => 13
  | Sunset => 17
  | Night => 20
  end.

(** A user's edit of one sub-control. *)
Inductive edit : Type :=
| EditHour (v : Z)
| EditMinutes (v : Z)
| EditDay (d : GLib.date_time).

(** The edit gives the sub-control a value it can hold and does not hold
    yet. *)
Definition changes (e : edit) (self : DateTime) : bool :=
  match e with
  | EditHour v => (0 <=? v) && (v <=? 23) && negb (v =? hour self)
  | EditMinutes v => (0 <=? v) && (v <=? 59) && negb (v =? minutes self)
  | EditDay d => negb (GLib.eqb d (calendar self))
  end.

(** The instance with the edited sub-control showing its new value. *)
Definition edited (e : edit) (self : DateTime) : DateTime :=
  match e with
  | EditHour v => with_hour v self
  | EditMinutes v => with_minutes v self
  | EditDay d => with_calendar d self
  end.

(** The edit as the toolkit carries it out. *)
Definition user_edit {host : Platform} (e : edit) : M unit :=
  match e with
  | EditHour v => hour_set_value v
  | EditMinutes v => minutes_set_value v
  | EditDay d => calendar_select_day d
  end.

(** How many of the two spin buttons a time preset changes. *)
Definition steppers_changed (b : time_preset) (self : DateTime) : nat :=
  (if hour self =? preset_hour b then 0%nat else 1%nat)
  + (if minutes self =? 0 then 0%nat else 1%nat).

(** A widget showing 09:05 on 15 January 2024, with signals unlocked. *)
Definition shown : DateTime :=
  mk_DateTime "20240115T090500" false 9 5 (GLib.mk_date_time 2024 1 15) 0.

(** ** The words of the specification *)

(** The recomputation rule in the words of the specification: the day as
    the calendar renders it, [T], hour and minute zero-padded to two
    digits, and two zeros. *)
Definition spec_stamp {host : Platform} (self : DateTime) : string :=
  date_time_format (calendar self) "%Y%m%d" ++ "T"
  ++ Py.zfill 2 (Py.str (hour self)) ++ Py.zfill 2 (Py.str (minutes self))
  ++ "00".

(** The fields of a string of the form [YYYYMMDDThhmm00]. *)
Definition canonical_fields (s : string) : option (Z * Z * Z * Z * Z) :=
  match s with
  | String y1 (String y2 (String y3 (String y4 (String m1 (String m2
    (String d1 (String d2 (String t (String h1 (String h2 (String n1
    (String n2 (String z1 (String z2 EmptyString)))))))))))))) =>
      if Ascii.eqb t "T" && Ascii.eqb z1 "0" && Ascii.eqb z2 "0" then
        match Py.int (str4 y1 y2 y3 y4), Py.int (str2 m1 m2),
              Py.int (str2 d1 d2), Py.int (str2 h1 h2), Py.int (str2 n1 n2) with
        | Some y, Some m, Some d, Some h, Some mi => Some (y, m, d, h, mi)
        | _, _, _, _, _ => None
        end
      else None
  | _ => None
  end.

(** A valid canonical string: of that form, and naming a day of the
    calendar (years 1 to 9999) and a time of day. *)
Definition valid_canonical (s : string) : bool :=
  match canonical_fields s with
  | Some (y, m, d, h, mi) =>
      Py.check_date_fields y m d && Py.check_time_fields h mi 0
  | None => false
  end.

(** The integer form in the words of the specification: the string with
    the literal [T] removed, read in base 10. *)
Fixpoint remove_T (s : string) : string :=
  match s with
  | EmptyString => EmptyString
  | String c r => if Ascii.eqb c "T" then remove_T r else String c (remove_T r)
  end.

Definition spec_int (s : string) : option Z := Py.int (remove_T s).

(** ** Sessions *)

(** What can happen to a widget: a user's edit of a sub-control, a press
    of one of its buttons, or a call of [set_datetime] by its owner. *)
Inductive action : Type :=
| Edit (e : edit)
| PressTime (b : time_preset)
| PressNow (now : Py.datetime)
| PressToday (now : Py.datetime)
| PressTomorrow (now : Py.datetime)
| PressClear
| SetDateTime (now : Py.datetime) (dt : string).

Definition perform {host : Platform}
           (fromisoformat : string -> option Py.datetime) (a : action) : M unit :=
  match a with
  | Edit e => user_edit e
  | PressTime b => _on_time_preset_clicked (label b)
  | PressNow now => _on_now_btn_clicked fromisoformat now
  | PressToday now => _on_today_btn_clicked fromisoformat now
  | PressTomorrow now => _on_tomorrow_btn_clicked fromisoformat now
  | PressClear => _on_clear_btn_clicked
  | SetDateTime now dt => set_datetime fromisoformat now dt
  end.

(** The actions of a session run one after the other; an exception ends
    its action, and the next action finds the instance as it was left. *)
Fixpoint session {host : Platform}
         (fromisoformat : string -> option Py.datetime)
         (actions : list action) (self : DateTime) : DateTime :=
  match actions with
  | [] => self
  | a :: rest =>
      session fromisoformat rest (state_after (perform fromisoformat a self))
  end.

(** Both spin buttons within the bounds of their adjustments. *)
Definition in_range (self : DateTime) : Prop :=
  0 <= hour self <= 23 /\ 0 <= minutes self <= 59.

(** The stored string is empty or the one the sub-controls spell. *)
Definition in_sync {host : Platform} (self : DateTime) : Prop :=
  datetime self = "" \/ datetime self = spec_stamp self.

(** Spin buttons within bounds and a stored string in step with them. *)
Definition coherent {host : Platform} (self : DateTime) : Prop :=
  in_range self /\ in_sync self.

(** A method that keeps a property of the instance, whether it returns or
    raises. *)
Definition keeps {A : Type} (P : DateTime -> Prop) (m : M A) : Prop :=
  forall self, P self -> P (state_after (m self)).

(** The day and time of a [datetime] as the fields of a stamp. *)
Definition fields_of (d : Py.datetime) : Z * Z * Z * Z * Z :=
  (Py.year d, Py.month d, Py.day d, Py.hour d, Py.minute d).

(** Chronological order on the fields of a stamp. *)
Definition earlier (a b : Z * Z * Z * Z * Z) : Prop :=
  let '(y1, m1, d1, h1, n1) := a in
  let '(y2, m2, d2, h2, n2) := b in
  y1 < y2 \/
  (y1 = y2 /\ (m1 < m2 \/
  (m1 = m2 /\ (d1 < d2 \/
  (d1 = d2 /\ (h1 < h2 \/
  (h1 = h2 /\ n1 < n2))))))).

(** The host renders a day the same way through GLib and through the C
    library. *)
Definition renderings_agree (host : Platform) : Prop :=
  forall d : Py.datetime,
    Py.valid d = true ->
    Py.strftime strftime_pads_year "%Y%m%dT%H%M00" d
    = date_time_format
        (GLib.mk_date_time (Py.year d) (Py.month d) (Py.day d)) "%Y%m%d"
      ++ "T" ++ Py.zfill 2 (Py.str (Py.hour d))
      ++ Py.zfill 2 (Py.str (Py.minute d)) ++ "00".

(** ** Runs of the builtins *)

Example strftime_now :
  Py.strftime false "%Y%m%dT%H%M00" (Py.mk_datetime 2024 1 15 9 5 42)
  = "20240115T090500".
Proof. reflexivity. Qed.

Example strftime_year_999 :
  Py.strftime false "%Y%m%dT%H%M00" (Py.mk_datetime 999 1 2 3 4 0)
  = "9990102T030400".
Proof. reflexivity. Qed.

Example fromisoformat_canonical :
  Py.fromisoformat "20240115T090000" = Some (Py.mk_datetime 2024 1 15 9 0 0).
Proof. reflexivity. Qed.

Example fromisoformat_extended :
  Py.fromisoformat "2024-01-15 09:30" = Some (Py.mk_datetime 2024 1 15 9 30 0).
Proof. reflexivity. Qed.

Example fromisoformat_malformed : Py.fromisoformat "tomorrow" = None.
Proof. reflexivity. Qed.

Example fromisoformat_bad_day : Py.fromisoformat "20230229T090000" = None.
Proof. reflexivity. Qed.

(** ** Digits *)

Lemma upto_In (n : nat) (z : Z) : 0 <= z < Z.of_nat n -> In z (upto n).
Proof.
  induction n as [|k IH]; intros Hz; [lia|].
  simpl. destruct (Z.eq_dec (Z.of_nat k) z) as [E|E]; [now left|].
  right. apply IH. lia.
Qed.

Lemma forallb_upto (P : Z -> bool) (n : nat) :
  forallb P (upto n) = true -> forall z, 0 <= z < Z.of_nat n -> P z = true.
Proof.
  intros H z Hz. rewrite forallb_forall in H. apply H, upto_In, Hz.
Qed.

Lemma forallb_below (P : Z -> bool) (b : Z) :
  forallb P (upto (Z.to_nat b)) = true -> forall z, 0 <= z < b -> P z = true.
Proof.
  intros H z Hz. apply (forallb_upto P (Z.to_nat b) H).
  rewrite Z2Nat.id; lia.
Qed.

Lemma zfill2_str (n : Z) : 0 <= n < 100 -> Py.zfill 2 (Py.str n) = two_digits n.
Proof.
  intros Hn. apply String.eqb_eq.
  apply (forallb_below
           (fun z => String.eqb (Py.zfill 2 (Py.str z)) (two_digits z)) 100);
    [vm_compute; reflexivity | exact Hn].
Qed.

Lemma zfill4_str (n : Z) : 0 <= n < 10000 -> Py.zfill 4 (Py.str n) = four_digits n.
Proof.
  intros Hn. apply String.eqb_eq.
  apply (forallb_below
           (fun z => String.eqb (Py.zfill 4 (Py.str z)) (four_digits z)) 10000);
    [vm_compute; reflexivity | exact Hn].
Qed.

Lemma str_four_digits (n : Z) : 1000 <= n < 10000 -> Py.str n = four_digits n.
Proof.
  intros Hn.
  assert (H : (n <? 1000) || String.eqb (Py.str n) (four_digits n) = true).
  { apply (forallb_below
             (fun z => (z <? 1000) || String.eqb (Py.str z) (four_digits z)) 10000);
      [vm_compute; reflexivity | lia]. }
  apply orb_true_iff in H. destruct H as [H|H].
  - apply Z.ltb_lt in H. lia.
  - now apply String.eqb_eq.
Qed.

(** The padding written out in [_on_date_time_changed], on a number of at
    most two digits. *)
Lemma prefix_zero_two_digits (n : Z) :
  0 <= n < 100 ->
  (if Nat.eqb (Py.len (Py.str n)) 1 then "0" ++ Py.str n else Py.str n)
  = two_digits n.
Proof.
  intros Hn. apply String.eqb_eq.
  apply (forallb_below
           (fun z => String.eqb
                       (if Nat.eqb (Py.len (Py.str z)) 1
                        then "0" ++ Py.str z else Py.str z)
                       (two_digits z)) 100);
    [vm_compute; reflexivity | exact Hn].
Qed.

Lemma digit_of_digit_char (n : Z) :
  0 <= n < 10 -> Py.digit_of (digit_char n) = Some n.
Proof.
  intros Hn.
  assert (H : (match Py.digit_of (digit_char n) with
               | Some k => k =? n
               | None => false
               end) = true).
  { apply (forallb_below
             (fun z => match Py.digit_of (digit_char z) with
                       | Some k => k =? z
                       | None => false
                       end) 10); [vm_compute; reflexivity | exact Hn]. }
  destruct (Py.digit_of (digit_char n)); [|discriminate].
  apply Z.eqb_eq in H. now subst.
Qed.

Lemma is_digit_digit_char (n : Z) :
  0 <= n < 10 -> Py.is_digit (digit_char n) = true.
Proof.
  intros Hn. pose proof (digit_of_digit_char n Hn) as H.
  unfold Py.digit_of in H. destruct (Py.is_digit (digit_char n)); [reflexivity|discriminate].
Qed.

Lemma is_digit_neq (c k : ascii) :
  Py.is_digit c = true -> Py.is_digit k = false -> Ascii.eqb c k = false.
Proof.
  intros Hc Hk. destruct (Ascii.eqb_spec c k) as [E|E]; [|reflexivity].
  subst. congruence.
Qed.

Lemma int_two_digits (n : Z) : 0 <= n < 100 -> Py.int (two_digits n) = Some n.
Proof.
  intros Hn. unfold two_digits, Py.int, Py.int_digits.
  rewrite !digit_of_digit_char
    by (try apply Z.mod_pos_bound; try (split; [apply Z.div_pos|apply Z.div_lt_upper_bound]); lia).
  f_equal. pose proof (Z.div_mod n 10). lia.
Qed.

Lemma int_four_digits (n : Z) : 0 <= n < 10000 -> Py.int (four_digits n) = Some n.
Proof.
  intros Hn. unfold four_digits, two_digits, Py.int, Py.int_digits.
  assert (0 <= n / 1000 < 10)
    by (split; [apply Z.div_pos|apply Z.div_lt_upper_bound]; lia).
  assert (0 <= n mod 100 < 100) by (apply Z.mod_pos_bound; lia).
  assert (0 <= n mod 100 / 10 < 10)
    by (split; [apply Z.div_pos|apply Z.div_lt_upper_bound]; lia).
  rewrite !digit_of_digit_char by (try apply Z.mod_pos_bound; lia).
  f_equal.
  pose proof (Z.div_mod n 1000). pose proof (Z.div_mod (n mod 100) 10).
  pose proof (Z.div_mod n 100). pose proof (Z.div_mod (n / 100) 10).
  assert (n / 100 / 10 = n / 1000) by (rewrite Z.div_div by lia; reflexivity).
  lia.
Qed.

(** ** What the signal handler and the sub-controls do to the instance *)

Section Frames.

Context {host : Platform}.

Lemma on_date_time_changed_frame (self : DateTime) :
  exists s,
    _on_date_time_changed self
    = (Ok tt, mk_DateTime s (lock_signals self) (hour self) (minutes self)
                (calendar self) (changed self + emissions true self)).
Proof.
  destruct self as [dt lock h m cal n].
  unfold _on_date_time_changed, emissions, emit_changed, update, ret; simpl.
  destruct lock; simpl; eexists.
  - rewrite Nat.add_0_r. reflexivity.
  - rewrite Nat.add_1_r. reflexivity.
Qed.

Lemma hour_set_value_frame (v : Z) (self : DateTime) :
  exists s,
    hour_set_value v self
    = (Ok tt, mk_DateTime s (lock_signals self) (Gtk.clamp 0 23 v) (minutes self)
                (calendar self)
                (changed self
                 + emissions (negb (Gtk.clamp 0 23 v =? hour self)) self)).
Proof.
  unfold hour_set_value.
  destruct (Z.eqb_spec (Gtk.clamp 0 23 v) (hour self)) as [E|E].
  - exists (datetime self). rewrite E. destruct self; unfold ret, emissions; simpl.
    rewrite Nat.add_0_r. reflexivity.
  - destruct (on_date_time_changed_frame (with_hour (Gtk.clamp 0 23 v) self))
      as [s Hs].
    exists s. rewrite Hs. reflexivity.
Qed.

Lemma minutes_set_value_frame (v : Z) (self : DateTime) :
  exists s,
    minutes_set_value v self
    = (Ok tt, mk_DateTime s (lock_signals self) (hour self) (Gtk.clamp 0 59 v)
                (calendar self)
                (changed self
                 + emissions (negb (Gtk.clamp 0 59 v =? minutes self)) self)).
Proof.
  unfold minutes_set_value.
  destruct (Z.eqb_spec (Gtk.clamp 0 59 v) (minutes self)) as [E|E].
  - exists (datetime self). rewrite E. destruct self; unfold ret, emissions; simpl.
    rewrite Nat.add_0_r. reflexivity.
  - destruct (on_date_time_changed_frame (with_minutes (Gtk.clamp 0 59 v) self))
      as [s Hs].
    exists s. rewrite Hs. reflexivity.
Qed.

Lemma glib_eqb_eq (a b : GLib.date_time) : GLib.eqb a b = true -> a = b.
Proof.
  destruct a, b. unfold GLib.eqb; simpl. intros H.
  apply andb_true_iff in H. destruct H as [H H3].
  apply andb_true_iff in H. destruct H as [H1 H2].
  apply Z.eqb_eq in H1, H2, H3. now subst.
Qed.

Lemma calendar_select_day_frame (d : GLib.date_time) (self : DateTime) :
  exists s,
    calendar_select_day d self
    = (Ok tt, mk_DateTime s (lock_signals self) (hour self) (minutes self) d
                (changed self
                 + emissions (negb (GLib.eqb d (calendar self)
                                    && negb select_day_reemits)) self)).
Proof.
  unfold calendar_select_day.
  destruct (GLib.eqb d (calendar self) && negb select_day_reemits) eqn:E.
  - apply andb_true_iff in E. destruct E as [E _]. apply glib_eqb_eq in E.
    exists (datetime self). subst d. destruct self; unfold ret, emissions; simpl.
    rewrite Nat.add_0_r. reflexivity.
  - destruct (on_date_time_changed_frame (with_calendar d self)) as [s Hs].
    exists s. rewrite Hs. reflexivity.
Qed.

End Frames.

(** ** [set_datetime] *)

Section SetDateTime.

Context {host : Platform}.
Variable fromisoformat : string -> option Py.datetime.

Lemma bind_ok {A B : Type} (m : M A) (k : A -> M B) (self self' : DateTime) (a : A) :
  m self = (Ok a, self') -> bind m k self = k a self'.
Proof. intros H. unfold bind. rewrite H. reflexivity. Qed.

Lemma bind_raise {A B : Type} (m : M A) (k : A -> M B) (self self' : DateTime) (e : exn) :
  m self = (Raise e, self') -> bind m k self = (Raise e, self').
Proof. intros H. unfold bind. rewrite H. reflexivity. Qed.

Lemma emissions_locked (b : bool) (self : DateTime) :
  lock_signals self = true -> emissions b self = 0%nat.
Proof. intros H. unfold emissions. rewrite H, andb_false_r. reflexivity. Qed.

Lemma bind_assoc {A B C : Type} (m : M A) (f : A -> M B) (g : B -> M C)
      (self : DateTime) :
  bind (bind m f) g self = bind m (fun x => bind (f x) g) self.
Proof. unfold bind. destruct (m self) as [[a|e] self']; reflexivity. Qed.

Lemma bind_ret {A B : Type} (a : A) (k : A -> M B) (self : DateTime) :
  bind (ret a) k self = k a self.
Proof. reflexivity. Qed.

Lemma bind_update {B : Type} (f : DateTime -> DateTime) (k : unit -> M B)
      (self : DateTime) :
  bind (update f) k self = k tt (f self).
Proof. reflexivity. Qed.

(** Run the next sub-control call with its frame lemma. *)
Ltac frame_step :=
  rewrite ?bind_assoc;
  match goal with
  | |- context [bind (hour_set_value ?v) _ ?st] =>
      let s := fresh "s" in let H := fresh "H" in
      destruct (hour_set_value_frame v st) as [s H];
      rewrite (bind_ok _ _ _ _ _ H); clear H
  | |- context [bind (minutes_set_value ?v) _ ?st] =>
      let s := fresh "s" in let H := fresh "H" in
      destruct (minutes_set_value_frame v st) as [s H];
      rewrite (bind_ok _ _ _ _ _ H); clear H
  | |- context [bind (calendar_select_day ?d) _ ?st] =>
      let s := fresh "s" in let H := fresh "H" in
      destruct (calendar_select_day_frame d st) as [s H];
      rewrite (bind_ok _ _ _ _ _ H); clear H
  end.

(** The empty argument: both spin buttons at 0, the calendar on the
    current day, the string empty, signals unlocked, nothing emitted. *)
Lemma set_datetime_empty (now : Py.datetime) (self : DateTime) :
  set_datetime fromisoformat now "" self
  = (Ok tt, mk_DateTime "" false 0 0 (GLib.new_now_local now) (changed self)).
Proof.
  unfold set_datetime.
  rewrite bind_update.
  cbn [String.eqb negb].
  do 3 frame_step.
  rewrite bind_ret, !bind_update. unfold update; cbn.
  rewrite !emissions_locked by reflexivity.
  rewrite !Nat.add_0_r. reflexivity.
Qed.

(** A malformed argument: the parser's ValueError leaves the method
    after the lock was taken and before anything else was touched. *)
Lemma set_datetime_unparsed (now : Py.datetime) (dt : string) (self : DateTime) :
  dt <> "" -> fromisoformat dt = None ->
  set_datetime fromisoformat now dt self
  = (Raise ValueError, with_lock_signals true self).
Proof.
  intros Hne Hp. unfold set_datetime.
  rewrite bind_update.
  destruct (String.eqb_spec dt "") as [E|_]; [contradiction|].
  cbn [negb]. rewrite Hp. reflexivity.
Qed.

(** A parsed argument whose rendering slices into numbers and a day. *)
Lemma set_datetime_parsed (now : Py.datetime) (dt : string) (self : DateTime)
      (d : Py.datetime) (h m y mo dd : Z) (day : GLib.date_time) :
  dt <> "" -> fromisoformat dt = Some d ->
  let dt' := Py.strftime strftime_pads_year "%Y%m%dT%H%M00" d in
  Py.int (Py.slice 9 11 dt') = Some h ->
  Py.int (Py.slice 11 13 dt') = Some m ->
  Py.int (Py.slice_to 4 dt') = Some y ->
  Py.int (Py.slice 4 6 dt') = Some mo ->
  Py.int (Py.slice 6 8 dt') = Some dd ->
  GLib.new_local y mo dd = Some day ->
  set_datetime fromisoformat now dt self
  = (Ok tt, mk_DateTime dt' false (Gtk.clamp 0 23 h) (Gtk.clamp 0 59 m) day
              (changed self)).
Proof.
  intros Hne Hp dt' Hh Hm Hy Hmo Hdd Hday. unfold set_datetime.
  rewrite bind_update.
  destruct (String.eqb_spec dt "") as [E|_]; [contradiction|].
  cbn [negb]. rewrite Hp.
  rewrite ?bind_assoc. cbn [or_raise]. rewrite bind_ret. cbv zeta. fold dt'.
  rewrite ?bind_assoc, Hh. cbn [or_raise]. rewrite bind_ret.
  frame_step.
  rewrite ?bind_assoc, Hm. cbn [or_raise]. rewrite bind_ret.
  frame_step.
  rewrite ?bind_assoc, Hy. cbn [or_raise]. rewrite bind_ret.
  rewrite ?bind_assoc, Hmo. cbn [or_raise]. rewrite bind_ret.
  rewrite ?bind_assoc, Hdd. cbn [or_raise]. rewrite bind_ret.
  rewrite ?bind_assoc, Hday. cbn [or_raise]. rewrite bind_ret.
  frame_step.
  rewrite bind_ret, !bind_update. unfold update; cbn.
  rewrite !emissions_locked by reflexivity.
  rewrite !Nat.add_0_r. reflexivity.
Qed.

(** A non-empty argument that the parser accepts is stored re-rendered,
    unless a later step raises. *)
Lemma set_datetime_stores_rendering (now : Py.datetime) (dt : string)
      (self : DateTime) (d : Py.datetime) :
  dt <> "" -> fromisoformat dt = Some d ->
  (exists e st, set_datetime fromisoformat now dt self = (Raise e, st)) \/
  (exists st,
      set_datetime fromisoformat now dt self = (Ok tt, st) /\
      datetime st = Py.strftime strftime_pads_year "%Y%m%dT%H%M00" d).
Proof.
  intros Hne Hp. unfold set_datetime.
  rewrite bind_update.
  destruct (String.eqb_spec dt "") as [E|_]; [contradiction|].
  cbn [negb]. rewrite Hp.
  rewrite ?bind_assoc. cbn [or_raise]. rewrite bind_ret. cbv zeta.
  set (dt' := Py.strftime strftime_pads_year "%Y%m%dT%H%M00" d).
  rewrite ?bind_assoc.
  destruct (Py.int (Py.slice 9 11 dt')) as [h|]; cbn [or_raise];
    [rewrite bind_ret | left; do 2 eexists; reflexivity].
  frame_step. rewrite ?bind_assoc.
  destruct (Py.int (Py.slice 11 13 dt')) as [m|]; cbn [or_raise];
    [rewrite bind_ret | left; do 2 eexists; reflexivity].
  frame_step. rewrite ?bind_assoc.
  destruct (Py.int (Py.slice_to 4 dt')) as [y|]; cbn [or_raise];
    [rewrite bind_ret | left; do 2 eexists; reflexivity].
  rewrite ?bind_assoc.
  destruct (Py.int (Py.slice 4 6 dt')) as [mo|]; cbn [or_raise];
    [rewrite bind_ret | left; do 2 eexists; reflexivity].
  rewrite ?bind_assoc.
  destruct (Py.int (Py.slice 6 8 dt')) as [dd|]; cbn [or_raise];
    [rewrite bind_ret | left; do 2 eexists; reflexivity].
  rewrite ?bind_assoc.
  destruct (GLib.new_local y mo dd) as [day|]; cbn [or_raise];
    [rewrite bind_ret | left; do 2 eexists; reflexivity].
  frame_step.
  rewrite bind_ret, !bind_update. unfold update.
  right. eexists. split; reflexivity.
Qed.

(** When [set_datetime] returns, the instance it leaves is the same
    from whatever instance it started, the count of emissions apart. *)
Lemma set_datetime_returns_inv (now : Py.datetime) (dt : string) (self : DateTime) :
  returned (set_datetime fromisoformat now dt self) = Ok tt ->
  exists (s : string) (h m : Z) (day : GLib.date_time),
    forall self' : DateTime,
      set_datetime fromisoformat now dt self'
      = (Ok tt, mk_DateTime s false h m day (changed self')).
Proof.
  intros Hok.
  destruct (String.eqb_spec dt "") as [->|Hne].
  { exists "", 0, 0, (GLib.new_now_local now). intros self'.
    apply set_datetime_empty. }
  destruct (fromisoformat dt) as [d|] eqn:Hp.
  2:{ rewrite (set_datetime_unparsed now dt self Hne Hp) in Hok.
      discriminate Hok. }
  set (dt' := Py.strftime strftime_pads_year "%Y%m%dT%H%M00" d).
  destruct (Py.int (Py.slice 9 11 dt')) as [h|] eqn:Eh.
  2:{ exfalso. revert Hok. unfold set_datetime. rewrite bind_update.
      destruct (String.eqb_spec dt "") as [E|_]; [contradiction|].
      cbn [negb]. rewrite Hp. rewrite ?bind_assoc. cbn [or_raise].
      rewrite bind_ret. cbv zeta. fold dt'. rewrite ?bind_assoc, Eh.
      cbn. discriminate. }
  destruct (Py.int (Py.slice 11 13 dt')) as [m|] eqn:Em.
  2:{ exfalso. revert Hok. unfold set_datetime. rewrite bind_update.
      destruct (String.eqb_spec dt "") as [E|_]; [contradiction|].
      cbn [negb]. rewrite Hp. rewrite ?bind_assoc. cbn [or_raise].
      rewrite bind_ret. cbv zeta. fold dt'. rewrite ?bind_assoc, Eh.
      cbn [or_raise]. rewrite bind_ret. frame_step.
      rewrite ?bind_assoc, Em. cbn. discriminate. }
  destruct (Py.int (Py.slice_to 4 dt')) as [y|] eqn:Ey.
  2:{ exfalso. revert Hok. unfold set_datetime. rewrite bind_update.
      destruct (String.eqb_spec dt "") as [E|_]; [contradiction|].
      cbn [negb]. rewrite Hp. rewrite ?bind_assoc. cbn [or_raise].
      rewrite bind_ret. cbv zeta. fold dt'. rewrite ?bind_assoc, Eh.
      cbn [or_raise]. rewrite bind_ret. frame_step.
      rewrite ?bind_assoc, Em. cbn [or_raise]. rewrite bind_ret. frame_step.
      rewrite ?bind_assoc, Ey. cbn. discriminate. }
  destruct (Py.int (Py.slice 4 6 dt')) as [mo|] eqn:Emo.
  2:{ exfalso. revert Hok. unfold set_datetime. rewrite bind_update.
      destruct (String.eqb_spec dt "") as [E|_]; [contradiction|].
      cbn [negb]. rewrite Hp. rewrite ?bind_assoc. cbn [or_raise].
      rewrite bind_ret. cbv zeta. fold dt'. rewrite ?bind_assoc, Eh.
      cbn [or_raise]. rewrite bind_ret. frame_step.
      rewrite ?bind_assoc, Em. cbn [or_raise]. rewrite bind_ret. frame_step.
      rewrite ?bind_assoc, Ey. cbn [or_raise]. rewrite bind_ret.
      rewrite ?bind_assoc, Emo. cbn. discriminate. }
  destruct (Py.int (Py.slice 6 8 dt')) as [dd|] eqn:Edd.
  2:{ exfalso. revert Hok. unfold set_datetime. rewrite bind_update.
      destruct (String.eqb_spec dt "") as [E|_]; [contradiction|].
      cbn [negb]. rewrite Hp. rewrite ?bind_assoc. cbn [or_raise].
      rewrite bind_ret. cbv zeta. fold dt'. rewrite ?bind_assoc, Eh.
      cbn [or_raise]. rewrite bind_ret. frame_step.
      rewrite ?bind_assoc, Em. cbn [or_raise]. rewrite bind_ret. frame_step.
      rewrite ?bind_assoc, Ey. cbn [or_raise]. rewrite bind_ret.
      rewrite ?bind_assoc, Emo. cbn [or_raise]. rewrite bind_ret.
      rewrite ?bind_assoc, Edd. cbn. discriminate. }
  destruct (GLib.new_local y mo dd) as [day|] eqn:Eday.
  2:{ exfalso. revert Hok. unfold set_datetime. rewrite bind_update.
      destruct (String.eqb_spec dt "") as [E|_]; [contradiction|].
      cbn [negb]. rewrite Hp. rewrite ?bind_assoc. cbn [or_raise].
      rewrite bind_ret. cbv zeta. fold dt'. rewrite ?bind_assoc, Eh.
      cbn [or_raise]. rewrite bind_ret. frame_step.
      rewrite ?bind_assoc, Em. cbn [or_raise]. rewrite bind_ret. frame_step.
      rewrite ?bind_assoc, Ey. cbn [or_raise]. rewrite bind_ret.
      rewrite ?bind_assoc, Emo. cbn [or_raise]. rewrite bind_ret.
      rewrite ?bind_assoc, Edd. cbn [or_raise]. rewrite bind_ret.
      rewrite ?bind_assoc, Eday. cbn. discriminate. }
  exists dt', (Gtk.clamp 0 23 h), (Gtk.clamp 0 59 m), day. intros self'.
  apply (set_datetime_parsed now dt self' d h m y mo dd day);
    assumption.
Qed.

(** *** Methods that emit nothing while the lock is held *)

Lemma quiet_ret {A : Type} (a : A) : quiet (ret a).
Proof. intros self H. split; [exact H | reflexivity]. Qed.

Lemma quiet_raise {A : Type} (e : exn) : quiet (@raise A e).
Proof. intros self H. split; [exact H | reflexivity]. Qed.

Lemma quiet_or_raise {A : Type} (e : exn) (o : option A) : quiet (or_raise e o).
Proof. destruct o; [apply quiet_ret | apply quiet_raise]. Qed.

Lemma quiet_bind {A B : Type} (m : M A) (k : A -> M B) :
  quiet m -> (forall a, quiet (k a)) -> quiet (bind m k).
Proof.
  intros Hm Hk self H. unfold bind.
  destruct (Hm self H) as [Hl Hc].
  destruct (m self) as [[a|e] self']; cbn [state_after snd] in *.
  - destruct (Hk a self' Hl) as [Hl' Hc']. split; [exact Hl' | congruence].
  - split; assumption.
Qed.

Lemma quiet_hour_set_value (v : Z) : quiet (hour_set_value v).
Proof.
  intros self H. destruct (hour_set_value_frame v self) as [s Hs].
  rewrite Hs. cbn. rewrite emissions_locked by exact H.
  split; [exact H | apply Nat.add_0_r].
Qed.

Lemma quiet_minutes_set_value (v : Z) : quiet (minutes_set_value v).
Proof.
  intros self H. destruct (minutes_set_value_frame v self) as [s Hs].
  rewrite Hs. cbn. rewrite emissions_locked by exact H.
  split; [exact H | apply Nat.add_0_r].
Qed.

Lemma quiet_calendar_select_day (d : GLib.date_time) :
  quiet (calendar_select_day d).
Proof.
  intros self H. destruct (calendar_select_day_frame d self) as [s Hs].
  rewrite Hs. cbn. rewrite emissions_locked by exact H.
  split; [exact H | apply Nat.add_0_r].
Qed.

Lemma quiet_if {A : Type} (b : bool) (m1 m2 : M A) :
  quiet m1 -> quiet m2 -> quiet (if b then m1 else m2).
Proof. destruct b; auto. Qed.

Create HintDb quiet.
#[local] Hint Resolve quiet_ret quiet_raise quiet_or_raise quiet_hour_set_value
  quiet_minutes_set_value quiet_calendar_select_day : quiet.
#[local] Hint Extern 2 (quiet (bind _ _)) => apply quiet_bind; [|intro] : quiet.
#[local] Hint Extern 2 (quiet (if _ then _ else _)) => apply quiet_if : quiet.

Lemma quiet_under_lock (body : M string) (self : DateTime) :
  quiet body ->
  changed (state_after
             ((update (with_lock_signals true) ;;
               dt <- body ;;
               update (with_datetime dt) ;;
               update (with_lock_signals false)) self))
  = changed self.
Proof.
  intros Q. rewrite bind_update.
  destruct (Q (with_lock_signals true self) eq_refl) as [_ Hc].
  unfold bind.
  destruct (body (with_lock_signals true self)) as [[s|e] st'];
    cbn [state_after snd update with_datetime with_lock_signals changed] in *;
    exact Hc.
Qed.

Lemma quiet_lock_released (body : M string) (self : DateTime) :
  quiet body ->
  let r := (update (with_lock_signals true) ;;
            dt <- body ;;
            update (with_datetime dt) ;;
            update (with_lock_signals false)) self in
  lock_signals (state_after r)
  = match returned r with Ok _ => false | Raise _ => true end.
Proof.
  intros Q. cbn zeta. rewrite bind_update.
  destruct (Q (with_lock_signals true self) eq_refl) as [Hl _].
  unfold bind.
  destruct (body (with_lock_signals true self)) as [[s|e] st'];
    cbn [state_after returned fst snd update with_datetime with_lock_signals
         lock_signals] in *;
    [reflexivity | exact Hl].
Qed.

(** Signals are unlocked when [set_datetime] returns and stay locked when
    it raises. *)
Lemma set_datetime_lock (now : Py.datetime) (dt : string) (self : DateTime) :
  lock_signals (state_after (set_datetime fromisoformat now dt self))
  = match returned (set_datetime fromisoformat now dt self) with
    | Ok _ => false
    | Raise _ => true
    end.
Proof.
  unfold set_datetime. apply quiet_lock_released. auto 20 with quiet.
Qed.

Lemma set_datetime_changed (now : Py.datetime) (dt : string) (self : DateTime) :
  changed (state_after (set_datetime fromisoformat now dt self)) = changed self.
Proof.
  unfold set_datetime. apply quiet_under_lock. auto 20 with quiet.
Qed.

End SetDateTime.

(** ** Time stamps: rendering and reading back *)

(** The reference parser on fifteen characters: eight for the date, any
    separator, four for hour and minute and two zeros. *)
Lemma fromisoformat_fifteen (y1 y2 y3 y4 m1 m2 d1 d2 sep h1 h2 n1 n2 : ascii) :
  Py.is_digit m1 = true -> Py.is_digit d1 = true -> Py.is_digit n1 = true ->
  Py.fromisoformat
    (str4 y1 y2 y3 y4 ++ str2 m1 m2 ++ str2 d1 d2 ++ String sep (str2 h1 h2 ++ str2 n1 n2 ++ "00"))
  = match Py.int (str4 y1 y2 y3 y4), Py.int (str2 m1 m2), Py.int (str2 d1 d2),
          Py.int (str2 h1 h2), Py.int (str2 n1 n2) with
    | Some y, Some m, Some d, Some h, Some mi =>
        if Py.check_date_fields y m d && Py.check_time_fields h mi 0
        then Some (Py.mk_datetime y m d h mi 0) else None
    | _, _, _, _, _ => None
    end.
Proof.
  intros Hm Hd Hn.
  assert (Em1 : Ascii.eqb m1 "-" = false) by (apply is_digit_neq; auto).
  assert (Em2 : Ascii.eqb m1 "W" = false) by (apply is_digit_neq; auto).
  assert (Ed : Ascii.eqb d1 "-" = false) by (apply is_digit_neq; auto).
  assert (En : Ascii.eqb n1 ":" = false) by (apply is_digit_neq; auto).
  unfold Py.fromisoformat, Py.find_isoformat_datetime_separator,
    Py.parse_isoformat_date, Py.parse_hh_mm_ss, str4, str2.
  repeat (progress (rewrite ?Em1, ?Em2, ?Ed, ?En;
                    cbn -[Py.int Py.check_date_fields Py.check_time_fields])).
  change (Py.int "00") with (Some 0).
  repeat match goal with
         | |- context [Py.int (String ?a ?r)] =>
             destruct (Py.int (String a r)); [|reflexivity]
         end.
  reflexivity.
Qed.

Lemma days_in_month_bounds (y m : Z) : 28 <= Py.days_in_month y m <= 31.
Proof.
  unfold Py.days_in_month.
  destruct (m =? 2); [destruct (Py.is_leap y); lia|].
  destruct ((m =? 4) || (m =? 6) || (m =? 9) || (m =? 11)); lia.
Qed.

Lemma check_date_fields_bounds (y m d : Z) :
  Py.check_date_fields y m d = true ->
  1 <= y <= 9999 /\ 1 <= m <= 12 /\ 1 <= d <= Py.days_in_month y m.
Proof.
  unfold Py.check_date_fields. rewrite !andb_true_iff, !Z.leb_le. lia.
Qed.

Lemma check_time_fields_bounds (h mi s : Z) :
  Py.check_time_fields h mi s = true ->
  0 <= h <= 23 /\ 0 <= mi <= 59 /\ 0 <= s <= 59.
Proof.
  unfold Py.check_time_fields. rewrite !andb_true_iff, !Z.leb_le. lia.
Qed.

Lemma valid_bounds (d : Py.datetime) :
  Py.valid d = true ->
  1 <= Py.year d <= 9999 /\ 1 <= Py.month d <= 12 /\ 1 <= Py.day d <= 31 /\
  0 <= Py.hour d <= 23 /\ 0 <= Py.minute d <= 59 /\ 0 <= Py.second d <= 59.
Proof.
  unfold Py.valid. rewrite andb_true_iff. intros [Hd Ht].
  apply check_date_fields_bounds in Hd. apply check_time_fields_bounds in Ht.
  pose proof (days_in_month_bounds (Py.year d) (Py.month d)). lia.
Qed.

Lemma digit_bounds_div (n : Z) : 0 <= n < 100 -> 0 <= n / 10 < 10.
Proof. intros H. split; [apply Z.div_pos | apply Z.div_lt_upper_bound]; lia. Qed.

Lemma digit_bounds_mod (n : Z) : 0 <= n mod 10 < 10.
Proof. apply Z.mod_pos_bound. lia. Qed.

Lemma fromisoformat_stamp (y m d h mi : Z) :
  0 <= y < 10000 -> 0 <= m < 100 -> 0 <= d < 100 -> 0 <= h < 100 ->
  0 <= mi < 100 ->
  Py.fromisoformat (stamp y m d h mi)
  = if Py.check_date_fields y m d && Py.check_time_fields h mi 0
    then Some (Py.mk_datetime y m d h mi 0) else None.
Proof.
  intros Hy Hm Hd Hh Hmi.
  pose proof (fromisoformat_fifteen
                (digit_char (y / 1000)) (digit_char (y / 100 mod 10))
                (digit_char (y mod 100 / 10)) (digit_char (y mod 100 mod 10))
                (digit_char (m / 10)) (digit_char (m mod 10))
                (digit_char (d / 10)) (digit_char (d mod 10)) "T"
                (digit_char (h / 10)) (digit_char (h mod 10))
                (digit_char (mi / 10)) (digit_char (mi mod 10))) as H.
  change (str4 (digit_char (y / 1000)) (digit_char (y / 100 mod 10))
               (digit_char (y mod 100 / 10)) (digit_char (y mod 100 mod 10)))
    with (four_digits y) in H.
  change (str2 (digit_char (m / 10)) (digit_char (m mod 10)))
    with (two_digits m) in H.
  change (str2 (digit_char (d / 10)) (digit_char (d mod 10)))
    with (two_digits d) in H.
  change (str2 (digit_char (h / 10)) (digit_char (h mod 10)))
    with (two_digits h) in H.
  change (str2 (digit_char (mi / 10)) (digit_char (mi mod 10)))
    with (two_digits mi) in H.
  rewrite int_four_digits, !int_two_digits in H by assumption.
  apply H; apply is_digit_digit_char, digit_bounds_div; assumption.
Qed.

Lemma stamp_slices (y m d h mi : Z) :
  Py.slice_to 4 (stamp y m d h mi) = four_digits y /\
  Py.slice 4 6 (stamp y m d h mi) = two_digits m /\
  Py.slice 6 8 (stamp y m d h mi) = two_digits d /\
  Py.slice 9 11 (stamp y m d h mi) = two_digits h /\
  Py.slice 11 13 (stamp y m d h mi) = two_digits mi.
Proof. repeat split; reflexivity. Qed.

Lemma stamp_not_empty (y m d h mi : Z) : stamp y m d h mi <> "".
Proof. unfold stamp, four_digits. cbn [append]. discriminate. Qed.

Lemma append_not_empty (a b : string) : b <> "" -> a ++ b <> "".
Proof.
  intros Hb. destruct a as [|c a]; cbn [append]; [exact Hb | discriminate].
Qed.

Lemma strftime_minutes_not_empty (pad_year : bool) (d : Py.datetime) :
  Py.strftime pad_year "%Y%m%dT%H%M00" d <> "".
Proof.
  cbn [Py.strftime Ascii.eqb Bool.eqb].
  do 3 apply append_not_empty. discriminate.
Qed.

Section Rendering.

Variable pad_year : bool.

Lemma strftime_minutes (d : Py.datetime) :
  Py.valid d = true -> four_digit_year pad_year (Py.year d) ->
  Py.strftime pad_year "%Y%m%dT%H%M00" d
  = stamp (Py.year d) (Py.month d) (Py.day d) (Py.hour d) (Py.minute d).
Proof.
  intros Hv Hy. apply valid_bounds in Hv.
  cbn [Py.strftime Py.directive Ascii.eqb Bool.eqb].
  rewrite !zfill2_str by lia.
  replace (if pad_year then Py.zfill 4 (Py.str (Py.year d)) else Py.str (Py.year d))
    with (four_digits (Py.year d)).
  - reflexivity.
  - unfold four_digit_year in Hy. destruct pad_year eqn:E.
    + symmetry. apply zfill4_str. lia.
    + destruct Hy as [Hy|Hy]; [congruence|].
      symmetry. apply str_four_digits. lia.
Qed.

Lemma strftime_midnight (d : Py.datetime) :
  Py.valid d = true -> four_digit_year pad_year (Py.year d) ->
  Py.strftime pad_year "%Y%m%dT000000" d
  = stamp (Py.year d) (Py.month d) (Py.day d) 0 0.
Proof.
  intros Hv Hy. apply valid_bounds in Hv.
  cbn [Py.strftime Py.directive Ascii.eqb Bool.eqb].
  rewrite !zfill2_str by lia.
  replace (if pad_year then Py.zfill 4 (Py.str (Py.year d)) else Py.str (Py.year d))
    with (four_digits (Py.year d)).
  - reflexivity.
  - unfold four_digit_year in Hy. destruct pad_year eqn:E.
    + symmetry. apply zfill4_str. lia.
    + destruct Hy as [Hy|Hy]; [congruence|].
      symmetry. apply str_four_digits. lia.
Qed.

End Rendering.

Lemma clamp_id (lower upper v : Z) :
  lower <= v <= upper -> Gtk.clamp lower upper v = v.
Proof.
  intros H. unfold Gtk.clamp.
  destruct (Z.ltb_spec upper v); [lia|].
  destruct (Z.ltb_spec v lower); [lia|reflexivity].
Qed.

Section SetStamp.

Context {host : Platform}.

(** [set_datetime] on a stamp of a real day and time, where the year is
    rendered on four digits: the stamp is stored as it is and the
    sub-controls show its fields. *)
Lemma set_datetime_stamp (now : Py.datetime) (y m d h mi : Z) (self : DateTime) :
  Py.check_date_fields y m d = true ->
  Py.check_time_fields h mi 0 = true ->
  four_digit_year strftime_pads_year y ->
  set_datetime Py.fromisoformat now (stamp y m d h mi) self
  = (Ok tt, mk_DateTime (stamp y m d h mi) false h mi (GLib.mk_date_time y m d)
              (changed self)).
Proof.
  intros Hd Ht Hy.
  pose proof (check_date_fields_bounds _ _ _ Hd) as Bd.
  pose proof (check_time_fields_bounds _ _ _ Ht) as Bt.
  pose proof (days_in_month_bounds y m) as Bm.
  assert (Hv : Py.valid (Py.mk_datetime y m d h mi 0) = true)
    by (unfold Py.valid; cbn; rewrite Hd, Ht; reflexivity).
  pose proof (strftime_minutes strftime_pads_year _ Hv Hy) as Hs.
  cbn [Py.year Py.month Py.day Py.hour Py.minute] in Hs.
  destruct (stamp_slices y m d h mi) as (S1 & S2 & S3 & S4 & S5).
  rewrite (set_datetime_parsed Py.fromisoformat now (stamp y m d h mi) self
             (Py.mk_datetime y m d h mi 0) h mi y m d (GLib.mk_date_time y m d)).
  - rewrite Hs, !clamp_id by lia. reflexivity.
  - apply stamp_not_empty.
  - rewrite fromisoformat_stamp by lia. rewrite Hd, Ht. reflexivity.
  - rewrite Hs, S4. apply int_two_digits. lia.
  - rewrite Hs, S5. apply int_two_digits. lia.
  - rewrite Hs, S1. apply int_four_digits. lia.
  - rewrite Hs, S2. apply int_two_digits. lia.
  - rewrite Hs, S3. apply int_two_digits. lia.
  - unfold GLib.new_local. rewrite Hd. reflexivity.
Qed.

End SetStamp.

(** ** Canonical strings are stamps *)

Lemma digit_of_inv (c : ascii) (k : Z) :
  Py.digit_of c = Some k -> 0 <= k < 10 /\ c = digit_char k.
Proof.
  intros H.
  destruct c as [[] [] [] [] [] [] [] []]; vm_compute in H; try discriminate;
    injection H as <-; (split; [lia | reflexivity]).
Qed.

Lemma int_str2 (a b : ascii) :
  Py.int (str2 a b)
  = match Py.digit_of a, Py.digit_of b with
    | Some x, Some y => Some (10 * x + y)
    | _, _ => None
    end.
Proof.
  unfold Py.int, str2. cbn [Py.int_digits].
  destruct (Py.digit_of a), (Py.digit_of b); reflexivity.
Qed.

Lemma int_str4 (a b c d : ascii) :
  Py.int (str4 a b c d)
  = match Py.digit_of a, Py.digit_of b, Py.digit_of c, Py.digit_of d with
    | Some x, Some y, Some z, Some w => Some (1000 * x + 100 * y + 10 * z + w)
    | _, _, _, _ => None
    end.
Proof.
  unfold Py.int, str4, str2. cbn [Py.int_digits].
  destruct (Py.digit_of a), (Py.digit_of b), (Py.digit_of c), (Py.digit_of d);
    try reflexivity.
  f_equal. lia.
Qed.

Lemma int_str2_inv (a b : ascii) (n : Z) :
  Py.int (str2 a b) = Some n -> 0 <= n < 100 /\ str2 a b = two_digits n.
Proof.
  rewrite int_str2. intros H.
  destruct (Py.digit_of a) as [ka|] eqn:Ea; [|discriminate].
  destruct (Py.digit_of b) as [kb|] eqn:Eb; [|discriminate].
  apply digit_of_inv in Ea, Eb. destruct Ea as [Ba ->]. destruct Eb as [Bb ->].
  assert (E : n = 10 * ka + kb) by congruence. subst n. clear H.
  assert (Hd : (10 * ka + kb) / 10 = ka)
    by (symmetry; apply (Z.div_unique _ 10 ka kb); lia).
  assert (Hm : (10 * ka + kb) mod 10 = kb)
    by (symmetry; apply (Z.mod_unique _ 10 ka kb); lia).
  split; [lia|]. unfold two_digits. rewrite Hd, Hm. reflexivity.
Qed.

Lemma int_str4_inv (a b c d : ascii) (n : Z) :
  Py.int (str4 a b c d) = Some n -> 0 <= n < 10000 /\ str4 a b c d = four_digits n.
Proof.
  rewrite int_str4. intros H.
  destruct (Py.digit_of a) as [ka|] eqn:Ea; [|discriminate].
  destruct (Py.digit_of b) as [kb|] eqn:Eb; [|discriminate].
  destruct (Py.digit_of c) as [kc|] eqn:Ec; [|discriminate].
  destruct (Py.digit_of d) as [kd|] eqn:Ed; [|discriminate].
  apply digit_of_inv in Ea, Eb, Ec, Ed.
  destruct Ea as [Ba ->], Eb as [Bb ->], Ec as [Bc ->], Ed as [Bd ->].
  assert (E : n = 1000 * ka + 100 * kb + 10 * kc + kd) by congruence.
  clear H.
  assert (H1 : n / 1000 = ka)
    by (symmetry; apply (Z.div_unique _ 1000 ka (100 * kb + 10 * kc + kd)); lia).
  assert (H2 : n / 100 = 10 * ka + kb)
    by (symmetry; apply (Z.div_unique _ 100 _ (10 * kc + kd)); lia).
  assert (H3 : n mod 100 = 10 * kc + kd)
    by (symmetry; apply (Z.mod_unique _ 100 (10 * ka + kb) _); lia).
  assert (H4 : (10 * ka + kb) mod 10 = kb)
    by (symmetry; apply (Z.mod_unique _ 10 ka kb); lia).
  assert (H5 : (10 * kc + kd) / 10 = kc)
    by (symmetry; apply (Z.div_unique _ 10 kc kd); lia).
  assert (H6 : (10 * kc + kd) mod 10 = kd)
    by (symmetry; apply (Z.mod_unique _ 10 kc kd); lia).
  split; [lia|]. unfold four_digits, two_digits.
  rewrite H1, H2, H3, H4, H5, H6. reflexivity.
Qed.

Lemma canonical_fields_stamp (s : string) (y m d h mi : Z) :
  canonical_fields s = Some (y, m, d, h, mi) ->
  s = stamp y m d h mi /\
  0 <= y < 10000 /\ 0 <= m < 100 /\ 0 <= d < 100 /\ 0 <= h < 100 /\
  0 <= mi < 100.
Proof.
  intros H.
  do 15 (destruct s as [|? s]; [discriminate H|]).
  destruct s; [|discriminate H].
  cbn [canonical_fields] in H.
  match type of H with
  | (if ?b then _ else _) = _ => destruct b eqn:E; [|discriminate H]
  end.
  apply andb_true_iff in E. destruct E as [E E3].
  apply andb_true_iff in E. destruct E as [E1 E2].
  apply Ascii.eqb_eq in E1, E2, E3. subst.
  repeat match type of H with
         | match Py.int ?x with _ => _ end = _ => destruct (Py.int x) eqn:?
         end; try discriminate H.
  injection H as <- <- <- <- <-.
  repeat match goal with
         | E : Py.int (str4 _ _ _ _) = Some _ |- _ => apply int_str4_inv in E; destruct E
         | E : Py.int (str2 _ _) = Some _ |- _ => apply int_str2_inv in E; destruct E
         end.
  repeat split; try lia.
  unfold stamp.
  repeat match goal with
         | E : _ = four_digits _ |- _ => rewrite <- E; clear E
         | E : _ = two_digits _ |- _ => rewrite <- E; clear E
         end.
  reflexivity.
Qed.

(** ** The integer form *)

Lemma int_digits_app (acc : Z) (a b : string) :
  Py.int_digits acc (a ++ b)
  = match Py.int_digits acc a with
    | Some v => Py.int_digits v b
    | None => None
    end.
Proof.
  revert acc. induction a as [|c a IH]; intros acc; cbn [append Py.int_digits].
  - reflexivity.
  - destruct (Py.digit_of c); [apply IH | reflexivity].
Qed.

Lemma int_digits_two (acc n : Z) :
  0 <= n < 100 -> Py.int_digits acc (two_digits n) = Some (100 * acc + n).
Proof.
  intros Hn. unfold two_digits. cbn [Py.int_digits].
  rewrite !digit_of_digit_char by auto using digit_bounds_div, digit_bounds_mod.
  f_equal. pose proof (Z.div_mod n 10). lia.
Qed.

Lemma int_digits_four (acc n : Z) :
  0 <= n < 10000 -> Py.int_digits acc (four_digits n) = Some (10000 * acc + n).
Proof.
  intros Hn. unfold four_digits.
  change (String ?a (String ?b ?r)) with (str2 a b ++ r).
  assert (H1 : 0 <= n / 100 < 100)
    by (split; [apply Z.div_pos | apply Z.div_lt_upper_bound]; lia).
  assert (E : str2 (digit_char (n / 1000)) (digit_char (n / 100 mod 10))
              = two_digits (n / 100)).
  { unfold two_digits, str2. rewrite Z.div_div by lia. reflexivity. }
  rewrite E, int_digits_app, int_digits_two by exact H1.
  rewrite int_digits_two by (apply Z.mod_pos_bound; lia).
  f_equal. pose proof (Z.div_mod n 100). lia.
Qed.

Lemma stamp_without_T (y m d h mi : Z) :
  Py.slice_to 8 (stamp y m d h mi) ++ Py.slice_from 9 (stamp y m d h mi)
  = four_digits y ++ two_digits m ++ two_digits d ++ two_digits h
    ++ two_digits mi ++ "00".
Proof. reflexivity. Qed.

Lemma digit_char_not_T (n : Z) :
  0 <= n < 10 -> Ascii.eqb (digit_char n) "T" = false.
Proof.
  intros Hn. apply is_digit_neq; [apply is_digit_digit_char, Hn | reflexivity].
Qed.

Lemma remove_T_stamp (y m d h mi : Z) :
  0 <= y < 10000 -> 0 <= m < 100 -> 0 <= d < 100 -> 0 <= h < 100 ->
  0 <= mi < 100 ->
  remove_T (stamp y m d h mi)
  = four_digits y ++ two_digits m ++ two_digits d ++ two_digits h
    ++ two_digits mi ++ "00".
Proof.
  intros Hy Hm Hd Hh Hmi.
  assert (0 <= y / 1000 < 10)
    by (split; [apply Z.div_pos | apply Z.div_lt_upper_bound]; lia).
  assert (0 <= y mod 100 < 100) by (apply Z.mod_pos_bound; lia).
  unfold stamp, four_digits, two_digits. cbn [append remove_T].
  rewrite !digit_char_not_T
    by auto using digit_bounds_div, digit_bounds_mod.
  reflexivity.
Qed.

Lemma int_fourteen_digits (y m d h mi : Z) :
  0 <= y < 10000 -> 0 <= m < 100 -> 0 <= d < 100 -> 0 <= h < 100 ->
  0 <= mi < 100 ->
  Py.int (four_digits y ++ two_digits m ++ two_digits d ++ two_digits h
          ++ two_digits mi ++ "00")
  = Some (stamp_number y m d h mi).
Proof.
  intros Hy Hm Hd Hh Hmi.
  replace (Py.int (four_digits y ++ two_digits m ++ two_digits d ++ two_digits h
                   ++ two_digits mi ++ "00"))
    with (Py.int_digits 0 (four_digits y ++ two_digits m ++ two_digits d
                           ++ two_digits h ++ two_digits mi ++ "00"))
    by reflexivity.
  rewrite int_digits_app, int_digits_four by exact Hy.
  rewrite int_digits_app, int_digits_two by exact Hm.
  rewrite int_digits_app, int_digits_two by exact Hd.
  rewrite int_digits_app, int_digits_two by exact Hh.
  rewrite int_digits_app, int_digits_two by exact Hmi.
  change "00" with (two_digits 0). rewrite int_digits_two by lia.
  f_equal. unfold stamp_number. lia.
Qed.

(** ** Edits and buttons *)

Lemma add_one_day_valid (d next : Py.datetime) :
  Py.valid d = true -> Py.add_one_day d = Some next ->
  Py.valid next = true /\ Py.year d <= Py.year next.
Proof.
  unfold Py.valid, Py.add_one_day. rewrite andb_true_iff. intros [Hd Ht] H.
  pose proof (check_date_fields_bounds _ _ _ Hd) as B.
  destruct (Z.ltb_spec (Py.day d) (Py.days_in_month (Py.year d) (Py.month d))).
  - injection H as <-. cbn. rewrite Ht, andb_true_r. split; [|lia].
    unfold Py.check_date_fields. rewrite !andb_true_iff, !Z.leb_le. lia.
  - destruct (Z.ltb_spec (Py.month d) 12).
    + injection H as <-. cbn. rewrite Ht, andb_true_r. split; [|lia].
      pose proof (days_in_month_bounds (Py.year d) (Py.month d + 1)).
      unfold Py.check_date_fields. rewrite !andb_true_iff, !Z.leb_le. lia.
    + destruct (Z.ltb_spec (Py.year d) 9999); [|discriminate].
      injection H as <-. cbn. rewrite Ht, andb_true_r. split; [|lia].
      pose proof (days_in_month_bounds (Py.year d + 1) 1).
      unfold Py.check_date_fields. rewrite !andb_true_iff, !Z.leb_le. lia.
Qed.

Section Events.

Context {host : Platform}.

(** An edit that changes a sub-control runs the handler on the instance
    with that sub-control updated. *)
Lemma user_edit_runs_handler (e : edit) (self : DateTime) :
  changes e self = true ->
  user_edit e self = _on_date_time_changed (edited e self).
Proof.
  destruct e as [v|v|d]; intros He; cbn [changes] in He; cbn [user_edit edited].
  - apply andb_true_iff in He. destruct He as [Hr Hne].
    apply andb_true_iff in Hr. destruct Hr as [Hl Hu].
    apply Z.leb_le in Hl, Hu. unfold hour_set_value.
    rewrite clamp_id by lia.
    destruct (v =? hour self); [discriminate | reflexivity].
  - apply andb_true_iff in He. destruct He as [Hr Hne].
    apply andb_true_iff in Hr. destruct Hr as [Hl Hu].
    apply Z.leb_le in Hl, Hu. unfold minutes_set_value.
    rewrite clamp_id by lia.
    destruct (v =? minutes self); [discriminate | reflexivity].
  - unfold calendar_select_day.
    destruct (GLib.eqb d (calendar self)); [discriminate | reflexivity].
Qed.

Lemma edited_lock (e : edit) (self : DateTime) :
  lock_signals (edited e self) = lock_signals self /\
  changed (edited e self) = changed self.
Proof. destruct e; split; reflexivity. Qed.

(** Such an edit returns, keeps the lock as it is and emits once exactly
    when signals are not locked. *)
Lemma user_edit_emissions (e : edit) (self : DateTime) :
  changes e self = true ->
  returned (user_edit e self) = Ok tt /\
  lock_signals (state_after (user_edit e self)) = lock_signals self /\
  changed (state_after (user_edit e self))
  = (if lock_signals self then changed self else S (changed self)).
Proof.
  intros He. rewrite (user_edit_runs_handler e self He).
  destruct (on_date_time_changed_frame (edited e self)) as [s Hs].
  rewrite Hs. destruct (edited_lock e self) as [El Ec].
  cbn [returned state_after fst snd lock_signals changed].
  rewrite El, Ec. unfold emissions. rewrite El.
  destruct (lock_signals self); cbn; repeat split; lia.
Qed.

Lemma label_split (b : time_preset) :
  exists hs ms,
    Py.split ":" (label b) = [hs; ms] /\
    Py.int hs = Some (preset_hour b) /\ Py.int ms = Some 0.
Proof. destruct b; do 2 eexists; repeat split. Qed.

Lemma time_preset_frame (b : time_preset) (self : DateTime) :
  exists s,
    _on_time_preset_clicked (label b) self
    = (Ok tt, mk_DateTime s (lock_signals self) (preset_hour b) 0 (calendar self)
                (changed self
                 + (if lock_signals self then 0 else steppers_changed b self))).
Proof.
  destruct (label_split b) as (hs & ms & Hsp & Hh & Hm).
  unfold _on_time_preset_clicked. rewrite Hsp, Hh. cbn [or_raise].
  rewrite bind_ret.
  destruct (hour_set_value_frame (preset_hour b) self) as [s1 H1].
  rewrite (bind_ok _ _ _ _ _ H1). rewrite Hm. cbn [or_raise]. rewrite bind_ret.
  match goal with
  | |- context [minutes_set_value 0 ?st] =>
      destruct (minutes_set_value_frame 0 st) as [s2 H2]
  end.
  rewrite H2. exists s2.
  cbn [lock_signals hour minutes calendar changed].
  rewrite !clamp_id by (destruct b; cbn; lia).
  unfold emissions, steppers_changed. cbn [lock_signals].
  f_equal. f_equal.
  destruct (lock_signals self); cbn [negb andb]; rewrite ?andb_false_r.
  - lia.
  - rewrite !andb_true_r. rewrite (Z.eqb_sym (preset_hour b)), (Z.eqb_sym 0).
    destruct (hour self =? preset_hour b), (minutes self =? 0); cbn; lia.
Qed.

(** The handler on an instance whose spin buttons are within bounds. *)
Lemma on_date_time_changed_in_range (self : DateTime) :
  in_range self ->
  _on_date_time_changed self
  = (Ok tt,
     mk_DateTime (spec_stamp self) (lock_signals self) (hour self)
       (minutes self) (calendar self)
       (if lock_signals self then changed self else S (changed self))).
Proof.
  intros [Hh Hm]. unfold _on_date_time_changed, spec_stamp.
  rewrite !prefix_zero_two_digits, !zfill2_str by lia.
  destruct self as [dt lock h m cal n]. destruct lock; reflexivity.
Qed.

(** The string a time preset leaves: untouched when both spin buttons
    already show its time, and otherwise the one the handler recomputes
    from the calendar day, the preset hour and minute 0. *)
Lemma time_preset_datetime (b : time_preset) (self : DateTime) :
  datetime (state_after (_on_time_preset_clicked (label b) self))
  = if (hour self =? preset_hour b) && (minutes self =? 0) then datetime self
    else spec_stamp (with_minutes 0 (with_hour (preset_hour b) self)).
Proof.
  destruct (label_split b) as (hs & ms & Hsp & Hih & Him).
  assert (Bp : 0 <= preset_hour b <= 23) by (destruct b; cbn; lia).
  unfold _on_time_preset_clicked. rewrite Hsp, Hih. cbn [or_raise].
  rewrite bind_ret.
  destruct (Z.eqb_spec (minutes self) 0) as [Em|Nm].
  - unfold bind at 1. unfold hour_set_value. rewrite clamp_id by exact Bp.
    rewrite (Z.eqb_sym (preset_hour b)).
    destruct (Z.eqb_spec (hour self) (preset_hour b)) as [Eh|Nh];
      cbn [andb negb].
    + cbn [ret]. rewrite Him. cbn [or_raise]. rewrite bind_ret.
      unfold minutes_set_value. rewrite clamp_id by lia.
      rewrite Em. reflexivity.
    + rewrite on_date_time_changed_in_range by (split; cbn; lia).
      rewrite Him. cbn [or_raise]. rewrite bind_ret.
      unfold minutes_set_value. rewrite clamp_id by lia.
      cbn [minutes with_hour]. rewrite Em. cbn [Z.eqb ret state_after snd datetime].
      unfold spec_stamp. cbn [with_hour with_minutes hour minutes calendar].
      rewrite Em. reflexivity.
  - rewrite andb_false_r.
    destruct (hour_set_value_frame (preset_hour b) self) as [s1 H1].
    rewrite (bind_ok _ _ _ _ _ H1), Him. cbn [or_raise]. rewrite bind_ret.
    unfold minutes_set_value. rewrite !clamp_id by lia. cbn [minutes].
    apply Z.eqb_neq in Nm. rewrite (Z.eqb_sym 0), Nm.
    rewrite on_date_time_changed_in_range by (split; cbn; lia).
    reflexivity.
Qed.

End Events.

Section RoundTrip.

Context {host : Platform}.

(** Round trip where the year is rendered on four digits: every valid
    canonical string is stored as it is. *)
Lemma set_datetime_canonical (now : Py.datetime) (s : string) (self : DateTime)
      (y m d h mi : Z) :
  canonical_fields s = Some (y, m, d, h, mi) ->
  valid_canonical s = true ->
  four_digit_year strftime_pads_year y ->
  set_datetime Py.fromisoformat now s self
  = (Ok tt, mk_DateTime s false h mi (GLib.mk_date_time y m d) (changed self)).
Proof.
  intros Hc Hv Hy. unfold valid_canonical in Hv. rewrite Hc in Hv.
  apply andb_true_iff in Hv. destruct Hv as [Hd Ht].
  apply canonical_fields_stamp in Hc. destruct Hc as [-> _].
  apply set_datetime_stamp; assumption.
Qed.

End RoundTrip.

(** ** The properties of the specification *)

Section Properties.

Context {host : Platform}.
Variable fromisoformat : string -> option Py.datetime.

(** C2.  For every hour in 0..23, every minute in 0..59 and every selected
    day, an edit of the hour spin button, of the minute spin button or of
    the calendar day runs one and the same handler, and the handler stores
    the calendar's day rendered by [%Y%m%d], then [T], then hour and
    minute zero-padded to two digits, then [00], leaves the rest of the
    instance alone, and emits [changed] once if signals are not locked and
    not at all if they are. *)
Theorem on_date_time_changed_recomputes (self : DateTime) :
  0 <= hour self <= 23 -> 0 <= minutes self <= 59 ->
  (forall e : edit,
      changes e self = true ->
      user_edit e self = _on_date_time_changed (edited e self)) /\
  _on_date_time_changed self
  = (Ok tt,
     mk_DateTime (spec_stamp self) (lock_signals self) (hour self)
       (minutes self) (calendar self)
       (if lock_signals self then changed self else S (changed self))).
Proof.
  intros Hh Hm. split.
  - intros e He. apply user_edit_runs_handler, He.
  - unfold _on_date_time_changed, spec_stamp.
    rewrite !prefix_zero_two_digits, !zfill2_str by lia.
    destruct self as [dt lock h m cal n]. destruct lock; reflexivity.
Qed.

(** C3.  [set_datetime] emits no [changed] signal, whatever its argument
    and whether it returns or raises: the handler runs for the spin
    buttons and the calendar while signals are locked, and the method has
    no emit of its own.  Signals are unlocked again when it returns and
    stay locked when it raises. *)
Theorem set_datetime_emits_nothing (now : Py.datetime) (dt : string)
        (self : DateTime) :
  let r := set_datetime fromisoformat now dt self in
  changed (state_after r) = changed self /\
  lock_signals (state_after r)
  = match returned r with Ok _ => false | Raise _ => true end.
Proof.
  cbn zeta. split; [apply set_datetime_changed | apply set_datetime_lock].
Qed.

(** C6.  Right after construction the value is unset: [get_datetime]
    returns the empty string, [get_human_datetime] the translation of
    "Not Set", and [get_datetime_as_int] 0. *)
Theorem unset_after_construction (now : Py.datetime) :
  get_datetime (init now) = "" /\
  get_human_datetime (init now) = gettext "Not Set" /\
  get_datetime_as_int (init now) = Ok 0.
Proof. repeat split. Qed.

(** C8.  For every non-empty string the parser rejects, [set_datetime]
    raises the parser's ValueError to its caller, and the stored string
    and with it the results of the three getters are what they were before
    the call. *)
Theorem set_datetime_malformed (now : Py.datetime) (dt : string)
        (self : DateTime) :
  dt <> "" -> fromisoformat dt = None ->
  let r := set_datetime fromisoformat now dt self in
  returned r = Raise ValueError /\
  datetime (state_after r) = datetime self /\
  get_datetime (state_after r) = get_datetime self /\
  get_human_datetime (state_after r) = get_human_datetime self /\
  get_datetime_as_int (state_after r) = get_datetime_as_int self /\
  changed (state_after r) = changed self.
Proof.
  intros Hne Hp. cbn zeta. rewrite (set_datetime_unparsed _ _ _ _ Hne Hp).
  destruct self. repeat split.
Qed.

(** C9.  Clear empties the stored string and emits once but leaves the
    hour, the minutes and the selected day as they were, while
    [set_datetime("")] puts both spin buttons at 0 and the calendar on the
    current day.  After either, the three getters report the unset value;
    the sub-controls end up different whenever they were not already at
    0, 0 and the current day. *)
Theorem clear_keeps_sub_controls (now : Py.datetime) (self : DateTime) :
  (hour self, minutes self, calendar self) <> (0, 0, GLib.new_now_local now) ->
  let cleared := state_after (_on_clear_btn_clicked self) in
  let reset := state_after (set_datetime fromisoformat now "" self) in
  returned (_on_clear_btn_clicked self) = Ok tt /\
  returned (set_datetime fromisoformat now "" self) = Ok tt /\
  datetime cleared = "" /\ changed cleared = S (changed self) /\
  (hour cleared, minutes cleared, calendar cleared)
  = (hour self, minutes self, calendar self) /\
  datetime reset = "" /\ changed reset = changed self /\
  (hour reset, minutes reset, calendar reset) = (0, 0, GLib.new_now_local now) /\
  (hour cleared, minutes cleared, calendar cleared)
  <> (hour reset, minutes reset, calendar reset) /\
  get_datetime cleared = "" /\ get_datetime reset = "" /\
  get_human_datetime cleared = gettext "Not Set" /\
  get_human_datetime reset = gettext "Not Set" /\
  get_datetime_as_int cleared = Ok 0 /\
  get_datetime_as_int reset = Ok 0.
Proof.
  intros Hdiff. cbn zeta. rewrite set_datetime_empty.
  destruct self as [dt lock h m cal n]. cbn in *.
  repeat split. exact Hdiff.
Qed.

End Properties.

(** C7.  In a state that holds a canonical string, [get_datetime_as_int]
    returns that string with the [T] removed, read as a base-10 integer,
    which is the number spelt by the digits of its fields; it returns
    20240115090000 for 20240115T090000, and 0 in the unset state. *)
Theorem get_datetime_as_int_canonical (self : DateTime) (y m d h mi : Z) :
  canonical_fields (datetime self) = Some (y, m, d, h, mi) ->
  spec_int (datetime self) = Some (stamp_number y m d h mi) /\
  get_datetime_as_int self = Ok (stamp_number y m d h mi) /\
  get_datetime_as_int (with_datetime "20240115T090000" self) = Ok 20240115090000 /\
  get_datetime_as_int (with_datetime "" self) = Ok 0.
Proof.
  intros Hc. apply canonical_fields_stamp in Hc.
  destruct Hc as (Hs & Hy & Hm & Hd & Hh & Hmi).
  split; [|split; [|split; reflexivity]].
  - unfold spec_int. rewrite Hs, remove_T_stamp by assumption.
    apply int_fourteen_digits; assumption.
  - unfold get_datetime_as_int. rewrite Hs.
    destruct (String.eqb_spec (stamp y m d h mi) "") as [E|_];
      [exfalso; exact (stamp_not_empty _ _ _ _ _ E)|].
    cbn [negb]. rewrite stamp_without_T, int_fourteen_digits by assumption.
    reflexivity.
Qed.

Section Buttons.

Context {host : Platform}.

(** C4 (amended).  Now, Today and Tomorrow call [set_datetime] with the
    rendered clock reading and then emit, and Clear does not call
    [set_datetime]: it stores the empty string, leaves the spin buttons,
    the calendar and the lock as they are, and emits.  For a clock reading
    whose year is rendered on four digits and whose next day exists, each
    of the four buttons returns with exactly one [changed] emitted. *)
Theorem preset_buttons_emit_once (now next : Py.datetime) (self : DateTime) :
  Py.valid now = true ->
  four_digit_year strftime_pads_year (Py.year now) ->
  Py.add_one_day now = Some next ->
  _on_now_btn_clicked Py.fromisoformat now self
  = (Ok tt,
     mk_DateTime
       (stamp (Py.year now) (Py.month now) (Py.day now) (Py.hour now) (Py.minute now))
       false (Py.hour now) (Py.minute now)
       (GLib.mk_date_time (Py.year now) (Py.month now) (Py.day now))
       (S (changed self))) /\
  _on_today_btn_clicked Py.fromisoformat now self
  = (Ok tt,
     mk_DateTime (stamp (Py.year now) (Py.month now) (Py.day now) 0 0)
       false 0 0 (GLib.mk_date_time (Py.year now) (Py.month now) (Py.day now))
       (S (changed self))) /\
  _on_tomorrow_btn_clicked Py.fromisoformat now self
  = (Ok tt,
     mk_DateTime (stamp (Py.year next) (Py.month next) (Py.day next) 0 0)
       false 0 0 (GLib.mk_date_time (Py.year next) (Py.month next) (Py.day next))
       (S (changed self))) /\
  _on_clear_btn_clicked self
  = (Ok tt,
     mk_DateTime "" (lock_signals self) (hour self) (minutes self)
       (calendar self) (S (changed self))) /\
  _on_now_btn_clicked Py.fromisoformat now self
  = emit_changed
      (state_after
         (set_datetime Py.fromisoformat now
            (Py.strftime strftime_pads_year "%Y%m%dT%H%M00" now) self)) /\
  _on_today_btn_clicked Py.fromisoformat now self
  = emit_changed
      (state_after
         (set_datetime Py.fromisoformat now
            (Py.strftime strftime_pads_year "%Y%m%dT000000" now) self)) /\
  _on_tomorrow_btn_clicked Py.fromisoformat now self
  = emit_changed
      (state_after
         (set_datetime Py.fromisoformat now
            (Py.strftime strftime_pads_year "%Y%m%dT000000" next) self)).
Proof.
  intros Hv Hy Hn.
  destruct (add_one_day_valid now next Hv Hn) as [Hv' Hle].
  assert (Hy' : four_digit_year strftime_pads_year (Py.year next))
    by (destruct Hy as [Hy|Hy]; [left; exact Hy | right; lia]).
  pose proof Hv as Hb. unfold Py.valid in Hb. apply andb_true_iff in Hb.
  destruct Hb as [Hd Ht].
  pose proof Hv' as Hb'. unfold Py.valid in Hb'. apply andb_true_iff in Hb'.
  destruct Hb' as [Hd' _].
  assert (Ht0 : Py.check_time_fields (Py.hour now) (Py.minute now) 0 = true).
  { apply check_time_fields_bounds in Ht. unfold Py.check_time_fields.
    rewrite !andb_true_iff, !Z.leb_le. lia. }
  unfold _on_now_btn_clicked, _on_today_btn_clicked, _on_tomorrow_btn_clicked.
  rewrite Hn. cbn [or_raise]. rewrite bind_ret.
  rewrite (strftime_minutes _ now Hv Hy), (strftime_midnight _ now Hv Hy),
    (strftime_midnight _ next Hv' Hy').
  rewrite !(bind_ok _ _ _ _ _ (set_datetime_stamp now _ _ _ _ _ self Hd Ht0 Hy)).
  rewrite !(bind_ok _ _ _ _ _ (set_datetime_stamp now _ _ _ 0 0 self Hd eq_refl Hy)).
  rewrite !(bind_ok _ _ _ _ _ (set_datetime_stamp now _ _ _ 0 0 self Hd' eq_refl Hy')).
  rewrite (set_datetime_stamp now _ _ _ _ _ self Hd Ht0 Hy),
    (set_datetime_stamp now _ _ _ 0 0 self Hd eq_refl Hy),
    (set_datetime_stamp now _ _ _ 0 0 self Hd' eq_refl Hy').
  destruct self as [dt lock hh mm cal n].
  repeat split.
Qed.


(** C10 (amended).  A time preset button only gives the two spin buttons
    its hour and minute 0 and has no emit of its own.  The stored string
    is left untouched when both spin buttons already show the preset's
    time, and is otherwise the one recomputed from the calendar day, the
    preset hour and minute 0, whether signals are locked or not.  While
    signals are not locked the press emits one [changed] for each spin
    button whose value changes, so two, one or none; while they are
    locked, as they are from construction until a call of [set_datetime]
    returns, it changes the spin buttons and the stored string and emits
    none. *)
Theorem time_preset_emissions (b : time_preset) (self : DateTime) :
  let press := _on_time_preset_clicked (label b) in
  returned (press self) = Ok tt /\
  hour (state_after (press self)) = preset_hour b /\
  minutes (state_after (press self)) = 0 /\
  calendar (state_after (press self)) = calendar self /\
  lock_signals (state_after (press self)) = lock_signals self /\
  changed (state_after (press self))
  = (changed self + (if lock_signals self then 0 else steppers_changed b self))%nat /\
  datetime (state_after (press self))
  = (if (hour self =? preset_hour b) && (minutes self =? 0) then datetime self
     else spec_stamp (with_minutes 0 (with_hour (preset_hour b) self))) /\
  exists both one none : DateTime,
    changed (state_after (press both)) = (changed both + 2)%nat /\
    changed (state_after (press one)) = (changed one + 1)%nat /\
    changed (state_after (press none)) = (changed none + 0)%nat /\
    lock_signals both = false /\ lock_signals one = false /\
    lock_signals none = false.
Proof.
  cbn zeta. pose proof (time_preset_datetime b self) as Hd.
  destruct (time_preset_frame b self) as [s Hs]. rewrite Hs in Hd |- *.
  do 6 (split; [reflexivity|]). split; [exact Hd|]. clear Hd.
  exists (mk_DateTime "" false (preset_hour b + 1) 1 (calendar self) 0),
         (mk_DateTime "" false (preset_hour b) 1 (calendar self) 0),
         (mk_DateTime "" false (preset_hour b) 0 (calendar self) 0).
  repeat match goal with
         | |- context [_on_time_preset_clicked (label b) ?st] =>
             let s' := fresh "s" in let H := fresh "H" in
             destruct (time_preset_frame b st) as [s' H]; rewrite H; clear H
         end.
  unfold steppers_changed. cbn [state_after snd changed lock_signals hour minutes].
  rewrite Z.eqb_refl.
  replace (preset_hour b + 1 =? preset_hour b) with false
    by (symmetry; apply Z.eqb_neq; lia).
  repeat split.
Qed.

End Buttons.

Example set_datetime_year_999_padded :
  set_datetime (host := padded) Py.fromisoformat a_monday "09990115T090000"
    (init a_monday)
  = (Ok tt, mk_DateTime "09990115T090000" false 9 0 (GLib.mk_date_time 999 1 15) 0).
Proof. vm_compute. reflexivity. Qed.

(** C1.  The claim: for every valid canonical string [s],
    [set_datetime(s)] followed by [get_datetime()] gives [s] back.  On a
    host whose C library renders the year without leading zeros, the valid
    canonical string 09990115T090000 is re-rendered on fourteen
    characters, the fixed slices no longer meet its fields, and the call
    raises ValueError with the hour at 23, the string recomputed from the
    sub-controls and signals left locked. *)
Theorem set_datetime_year_999 :
  valid_canonical "09990115T090000" = true /\
  Py.fromisoformat "09990115T090000" = Some (Py.mk_datetime 999 1 15 9 0 0) /\
  Py.strftime (strftime_pads_year (Platform := linux)) "%Y%m%dT%H%M00"
    (Py.mk_datetime 999 1 15 9 0 0) = "9990115T090000" /\
  set_datetime (host := linux) Py.fromisoformat a_monday "09990115T090000"
    (init a_monday)
  = (Raise ValueError,
     mk_DateTime "20240115T230000" true 23 0 (GLib.mk_date_time 2024 1 15) 0) /\
  get_datetime
    (state_after
       (set_datetime (host := linux) Py.fromisoformat a_monday
          "09990115T090000" (init a_monday)))
  <> "09990115T090000".
Proof.
  repeat split; try (vm_compute; reflexivity).
  vm_compute. discriminate.
Qed.

(** ** Witnesses and counterexamples *)

Lemma on_date_time_changed_recomputes_witness :
  (0 <= hour shown <= 23) /\ (0 <= minutes shown <= 59) /\
  _on_date_time_changed (host := linux) shown
  = (Ok tt,
     mk_DateTime "20240115T090500" false 9 5 (GLib.mk_date_time 2024 1 15) 1).
Proof.
  assert (Hh : 0 <= hour shown <= 23) by (cbn; lia).
  assert (Hm : 0 <= minutes shown <= 59) by (cbn; lia).
  split; [exact Hh | split; [exact Hm|]].
  exact (proj2 (on_date_time_changed_recomputes (host := linux) shown Hh Hm)).
Defined.

Lemma get_datetime_as_int_canonical_witness :
  canonical_fields (datetime shown) = Some (2024, 1, 15, 9, 5) /\
  get_datetime_as_int shown = Ok 20240115090500.
Proof.
  split; [reflexivity|].
  exact (proj1 (proj2 (get_datetime_as_int_canonical shown 2024 1 15 9 5 eq_refl))).
Defined.

Lemma set_datetime_malformed_witness :
  "tomorrow" <> "" /\ Py.fromisoformat "tomorrow" = None /\
  returned (set_datetime (host := linux) Py.fromisoformat a_monday "tomorrow" shown)
  = Raise ValueError /\
  get_datetime
    (state_after
       (set_datetime (host := linux) Py.fromisoformat a_monday "tomorrow" shown))
  = "20240115T090500".
Proof.
  assert (Hne : "tomorrow" <> "") by discriminate.
  split; [exact Hne | split; [reflexivity|]].
  pose proof (set_datetime_malformed (host := linux) Py.fromisoformat a_monday
                "tomorrow" shown Hne eq_refl) as H.
  cbn zeta in H. destruct H as (H1 & _ & H3 & _).
  split; [exact H1 | exact H3].
Defined.

Lemma clear_keeps_sub_controls_witness :
  (hour shown, minutes shown, calendar shown)
  <> (0, 0, GLib.new_now_local a_monday) /\
  hour (state_after (_on_clear_btn_clicked shown)) = 9 /\
  hour (state_after (set_datetime (host := linux) Py.fromisoformat a_monday "" shown))
  = 0.
Proof.
  assert (Hd : (hour shown, minutes shown, calendar shown)
               <> (0, 0, GLib.new_now_local a_monday)) by discriminate.
  split; [exact Hd|].
  pose proof (clear_keeps_sub_controls (host := linux) Py.fromisoformat a_monday
                shown Hd) as H.
  cbn zeta in H. destruct H as (_ & _ & _ & _ & H5 & _ & _ & H8 & _).
  split; [exact (f_equal (fun t => fst (fst t)) H5)
         | exact (f_equal (fun t => fst (fst t)) H8)].
Defined.

Lemma preset_buttons_emit_once_witness :
  Py.valid a_monday = true /\
  Py.add_one_day a_monday = Some (Py.mk_datetime 2024 1 16 9 5 42) /\
  _on_tomorrow_btn_clicked (host := linux) Py.fromisoformat a_monday (init a_monday)
  = (Ok tt,
     mk_DateTime "20240116T000000" false 0 0 (GLib.mk_date_time 2024 1 16) 1).
Proof.
  split; [reflexivity | split; [reflexivity|]].
  assert (Hy : four_digit_year (strftime_pads_year (Platform := linux))
                               (Py.year a_monday)) by (right; cbn; lia).
  exact (proj1 (proj2 (proj2
           (preset_buttons_emit_once (host := linux) a_monday
              (Py.mk_datetime 2024 1 16 9 5 42) (init a_monday)
              eq_refl Hy eq_refl)))).
Defined.


(** Clear is not a call of [set_datetime] followed by an emit, whatever
    the argument: it keeps the hour at 9 and stores the empty string, where
    [set_datetime("")] puts the hour at 0 and every other argument either
    raises or stores a rendered time stamp. *)
Lemma clear_is_not_set_datetime :
  _on_clear_btn_clicked shown
  <> (set_datetime (host := linux) Py.fromisoformat a_monday "" ;; emit_changed)
       shown /\
  ~ exists dt : string,
      _on_clear_btn_clicked shown
      = (set_datetime (host := linux) Py.fromisoformat a_monday dt ;; emit_changed)
          shown.
Proof.
  split; [vm_compute; discriminate|].
  intros [dt H].
  destruct (String.eqb_spec dt "") as [->|Hne]; [vm_compute in H; discriminate H|].
  destruct (Py.fromisoformat dt) as [d|] eqn:Hp.
  - destruct (set_datetime_stores_rendering (host := linux) Py.fromisoformat
                a_monday dt shown d Hne Hp) as [(e & st & Hr)|(st & Hr & Hs)].
    + rewrite (bind_raise _ _ _ _ _ Hr) in H. discriminate H.
    + rewrite (bind_ok _ _ _ _ _ Hr) in H.
      apply (f_equal (fun r => datetime (state_after r))) in H.
      cbn in H. rewrite Hs in H. symmetry in H.
      exact (strftime_minutes_not_empty _ _ H).
  - rewrite (bind_raise _ _ _ _ _
               (set_datetime_unparsed (host := linux) Py.fromisoformat a_monday dt
                  shown Hne Hp)) in H.
    discriminate H.
Qed.


(** Right after construction the 09:00 button changes the hour spin
    button and emits nothing. *)
Lemma time_preset_after_construction_is_silent :
  steppers_changed Morning (init a_monday) = 1%nat /\
  changed
    (state_after
       (_on_time_preset_clicked (host := linux) (label Morning) (init a_monday)))
  <> (changed (init a_monday) + steppers_changed Morning (init a_monday))%nat.
Proof. split; vm_compute; [reflexivity | discriminate]. Qed.

(** ** Further properties of the widget *)

Section Normalisation.

Context {host : Platform}.
Variable fromisoformat : string -> option Py.datetime.

(** What [set_datetime] does with an argument read as a day and time
    whose year is rendered on four digits. *)
Lemma set_datetime_valid (now : Py.datetime) (dt : string) (self : DateTime)
      (d : Py.datetime) :
  dt <> "" -> fromisoformat dt = Some d -> Py.valid d = true ->
  four_digit_year strftime_pads_year (Py.year d) ->
  set_datetime fromisoformat now dt self
  = (Ok tt,
     mk_DateTime
       (stamp (Py.year d) (Py.month d) (Py.day d) (Py.hour d) (Py.minute d))
       false (Py.hour d) (Py.minute d)
       (GLib.mk_date_time (Py.year d) (Py.month d) (Py.day d))
       (changed self)).
Proof.
  intros Hne Hp Hv Hy.
  pose proof (valid_bounds d Hv) as B.
  pose proof (strftime_minutes strftime_pads_year d Hv Hy) as Hs.
  pose proof Hv as Hc. unfold Py.valid in Hc. apply andb_true_iff in Hc.
  destruct Hc as [Hd _].
  destruct (stamp_slices (Py.year d) (Py.month d) (Py.day d) (Py.hour d)
              (Py.minute d)) as (S1 & S2 & S3 & S4 & S5).
  rewrite (set_datetime_parsed fromisoformat now dt self d (Py.hour d)
             (Py.minute d) (Py.year d) (Py.month d) (Py.day d)
             (GLib.mk_date_time (Py.year d) (Py.month d) (Py.day d))).
  - rewrite Hs, !clamp_id by lia. reflexivity.
  - exact Hne.
  - exact Hp.
  - rewrite Hs, S4. apply int_two_digits. lia.
  - rewrite Hs, S5. apply int_two_digits. lia.
  - rewrite Hs, S1. apply int_four_digits. lia.
  - rewrite Hs, S2. apply int_two_digits. lia.
  - rewrite Hs, S3. apply int_two_digits. lia.
  - unfold GLib.new_local. rewrite Hd. reflexivity.
Qed.

End Normalisation.

(** ** Years below 1000 *)

Lemma str_one_digit (y : Z) :
  0 <= y < 10 -> Py.str y = String (digit_char y) EmptyString.
Proof.
  intros Hy. apply String.eqb_eq.
  apply (forallb_below
           (fun z => String.eqb (Py.str z) (String (digit_char z) EmptyString)) 10);
    [vm_compute; reflexivity | exact Hy].
Qed.

Lemma str_two_digits (y : Z) : 10 <= y < 100 -> Py.str y = two_digits y.
Proof.
  intros Hy.
  assert (H : (y <? 10) || String.eqb (Py.str y) (two_digits y) = true).
  { apply (forallb_below
             (fun z => (z <? 10) || String.eqb (Py.str z) (two_digits z)) 100);
      [vm_compute; reflexivity | lia]. }
  apply orb_true_iff in H. destruct H as [H|H].
  - apply Z.ltb_lt in H. lia.
  - now apply String.eqb_eq.
Qed.

Lemma str_three_digits (y : Z) :
  100 <= y < 1000 ->
  Py.str y = String (digit_char (y / 100)) (two_digits (y mod 100)).
Proof.
  intros Hy.
  assert (H : (y <? 100)
              || String.eqb (Py.str y)
                   (String (digit_char (y / 100)) (two_digits (y mod 100)))
              = true).
  { apply (forallb_below
             (fun z => (z <? 100)
                       || String.eqb (Py.str z)
                            (String (digit_char (z / 100)) (two_digits (z mod 100))))
             1000); [vm_compute; reflexivity | lia]. }
  apply orb_true_iff in H. destruct H as [H|H].
  - apply Z.ltb_lt in H. lia.
  - now apply String.eqb_eq.
Qed.

Lemma int_digit_pair (a b : ascii) :
  Py.is_digit a = true -> Py.is_digit b = true ->
  exists v, Py.int (String a (String b EmptyString)) = Some v.
Proof.
  intros Ha Hb. change (String a (String b EmptyString)) with (str2 a b).
  rewrite int_str2. unfold Py.digit_of. rewrite Ha, Hb. eexists. reflexivity.
Qed.

Lemma int_digit_quad (a b c d : ascii) :
  Py.is_digit a = true -> Py.is_digit b = true -> Py.is_digit c = true ->
  Py.is_digit d = true ->
  exists v, Py.int (String a (String b (String c (String d EmptyString)))) = Some v.
Proof.
  intros Ha Hb Hc Hd.
  change (String a (String b (String c (String d EmptyString))))
    with (str4 a b c d).
  rewrite int_str4. unfold Py.digit_of. rewrite Ha, Hb, Hc, Hd.
  eexists. reflexivity.
Qed.

Lemma int_digit_then_T (a : ascii) (r : string) :
  Py.int (String a (String "T" r)) = None.
Proof.
  unfold Py.int. cbn [Py.int_digits]. destruct (Py.digit_of a); reflexivity.
Qed.

Lemma int_T_first (r : string) : Py.int (String "T" r) = None.
Proof. reflexivity. Qed.

(** Run the next call on a sub-control by its frame lemma. *)
Ltac frame_next :=
  rewrite ?bind_assoc;
  match goal with
  | |- context [bind (hour_set_value ?v) _ ?st] =>
      let s := fresh "s" in let H := fresh "H" in
      destruct (hour_set_value_frame v st) as [s H];
      rewrite (bind_ok _ _ _ _ _ H); clear H
  | |- context [bind (minutes_set_value ?v) _ ?st] =>
      let s := fresh "s" in let H := fresh "H" in
      destruct (minutes_set_value_frame v st) as [s H];
      rewrite (bind_ok _ _ _ _ _ H); clear H
  | |- context [bind (calendar_select_day ?d) _ ?st] =>
      let s := fresh "s" in let H := fresh "H" in
      destruct (calendar_select_day_frame d st) as [s H];
      rewrite (bind_ok _ _ _ _ _ H); clear H
  end.

(** Read the next slice as a number that exists. *)
Ltac int_next :=
  rewrite ?bind_assoc;
  match goal with
  | |- context [bind (or_raise _ (Py.int (String ?a (String ?b EmptyString)))) _ _] =>
      let v := fresh "v" in let H := fresh "H" in
      destruct (int_digit_pair a b) as [v H];
      [ first [apply is_digit_digit_char;
               first [solve [auto using digit_bounds_div, digit_bounds_mod] | assumption | lia]
              | reflexivity]
      | first [apply is_digit_digit_char;
               first [solve [auto using digit_bounds_div, digit_bounds_mod] | assumption | lia]
              | reflexivity]
      | rewrite H; cbn [or_raise]; rewrite bind_ret; clear H ]
  | |- context [bind (or_raise _
                        (Py.int (String ?a (String ?b (String ?c (String ?d EmptyString))))))
                     _ _] =>
      let v := fresh "v" in let H := fresh "H" in
      destruct (int_digit_quad a b c d) as [v H];
      [ first [apply is_digit_digit_char;
               first [solve [auto using digit_bounds_div, digit_bounds_mod] | assumption | lia]
              | reflexivity] ..
      | rewrite H; cbn [or_raise]; rewrite bind_ret; clear H ]
  end.

Section ShortYears.

Context {host : Platform}.
Variable fromisoformat : string -> option Py.datetime.

Lemma set_datetime_short_year (now : Py.datetime) (dt : string) (self : DateTime)
      (d : Py.datetime) :
  strftime_pads_year = false ->
  dt <> "" -> fromisoformat dt = Some d -> Py.valid d = true ->
  Py.year d < 1000 ->
  returned (set_datetime fromisoformat now dt self) = Raise ValueError.
Proof.
  intros Hpad Hne Hp Hv Hy.
  pose proof (valid_bounds d Hv) as B.
  assert (Bm : 0 <= Py.month d < 100) by lia.
  assert (Bd : 0 <= Py.day d < 100) by lia.
  assert (Bh : 0 <= Py.hour d < 100) by lia.
  assert (Bn : 0 <= Py.minute d < 100) by lia.
  unfold set_datetime. rewrite bind_update.
  destruct (String.eqb_spec dt "") as [E|_]; [contradiction|].
  cbn [negb]. rewrite Hp, Hpad.
  rewrite ?bind_assoc. cbn [or_raise]. rewrite bind_ret. cbv zeta.
  cbn [Py.strftime Py.directive Ascii.eqb Bool.eqb].
  rewrite !zfill2_str by assumption.
  destruct (Z.lt_ge_cases (Py.year d) 10) as [H1|H1];
    [|destruct (Z.lt_ge_cases (Py.year d) 100) as [H2|H2]].
  - rewrite (str_one_digit (Py.year d)) by lia.
    unfold two_digits. cbn [append Py.slice Py.slice_to substring Nat.sub].
    int_next. frame_next.
    rewrite ?bind_assoc.
    change (Py.int "0") with (Some 0). cbn [or_raise]. rewrite bind_ret.
    frame_next.
    int_next.
    rewrite ?bind_assoc, int_digit_then_T. reflexivity.
  - rewrite (str_two_digits (Py.year d)) by lia.
    assert (0 <= Py.year d / 10 < 10) by (apply digit_bounds_div; lia).
    unfold two_digits. cbn [append Py.slice Py.slice_to substring Nat.sub].
    int_next. frame_next.
    int_next. frame_next.
    int_next. int_next.
    rewrite ?bind_assoc, int_T_first. reflexivity.
  - rewrite (str_three_digits (Py.year d)) by lia.
    assert (0 <= Py.year d / 100 < 10)
      by (split; [apply Z.div_pos | apply Z.div_lt_upper_bound]; lia).
    assert (0 <= Py.year d mod 100 < 100) by (apply Z.mod_pos_bound; lia).
    unfold two_digits. cbn [append Py.slice Py.slice_to substring Nat.sub].
    int_next. frame_next.
    int_next. frame_next.
    int_next. int_next.
    rewrite ?bind_assoc, int_digit_then_T. reflexivity.
Qed.

End ShortYears.

(** ** Properties kept by every action *)

Lemma clamp_range (lower upper v : Z) :
  lower <= upper -> lower <= Gtk.clamp lower upper v <= upper.
Proof.
  intros H. unfold Gtk.clamp.
  destruct (Z.ltb_spec upper v); [lia|].
  destruct (Z.ltb_spec v lower); lia.
Qed.

Lemma keeps_ret {A : Type} (P : DateTime -> Prop) (a : A) : keeps P (ret a).
Proof. intros self H. exact H. Qed.

Lemma keeps_raise {A : Type} (P : DateTime -> Prop) (e : exn) :
  keeps P (@raise A e).
Proof. intros self H. exact H. Qed.

Lemma keeps_or_raise {A : Type} (P : DateTime -> Prop) (e : exn) (o : option A) :
  keeps P (or_raise e o).
Proof. destruct o; [apply keeps_ret | apply keeps_raise]. Qed.

Lemma keeps_bind {A B : Type} (P : DateTime -> Prop) (m : M A) (k : A -> M B) :
  keeps P m -> (forall a, keeps P (k a)) -> keeps P (bind m k).
Proof.
  intros Hm Hk self H. unfold bind. specialize (Hm self H).
  destruct (m self) as [[a|e] self']; cbn [state_after snd] in *.
  - apply (Hk a self' Hm).
  - exact Hm.
Qed.

Lemma keeps_if {A : Type} (P : DateTime -> Prop) (b : bool) (m1 m2 : M A) :
  keeps P m1 -> keeps P m2 -> keeps P (if b then m1 else m2).
Proof. destruct b; auto. Qed.

Lemma keeps_update (P : DateTime -> Prop) (f : DateTime -> DateTime) :
  (forall self, P self -> P (f self)) -> keeps P (update f).
Proof. intros Hf self H. apply Hf, H. Qed.

Section Invariants.

Context {host : Platform}.
Variable fromisoformat : string -> option Py.datetime.

Lemma keeps_in_range_handler : keeps in_range _on_date_time_changed.
Proof.
  intros self H. destruct (on_date_time_changed_frame self) as [s Hs].
  rewrite Hs. exact H.
Qed.

Lemma keeps_in_range_hour (v : Z) : keeps in_range (hour_set_value v).
Proof.
  intros self [Hh Hm]. destruct (hour_set_value_frame v self) as [s Hs].
  rewrite Hs. split; cbn; [apply clamp_range; lia | exact Hm].
Qed.

Lemma keeps_in_range_minutes (v : Z) : keeps in_range (minutes_set_value v).
Proof.
  intros self [Hh Hm]. destruct (minutes_set_value_frame v self) as [s Hs].
  rewrite Hs. split; cbn; [exact Hh | apply clamp_range; lia].
Qed.

Lemma keeps_in_range_calendar (d : GLib.date_time) :
  keeps in_range (calendar_select_day d).
Proof.
  intros self H. destruct (calendar_select_day_frame d self) as [s Hs].
  rewrite Hs. exact H.
Qed.

Lemma keeps_in_range_emit : keeps in_range emit_changed.
Proof. intros self H. exact H. Qed.

Create HintDb keeps.
#[local] Hint Resolve keeps_ret keeps_raise keeps_or_raise keeps_in_range_hour
  keeps_in_range_minutes keeps_in_range_calendar keeps_in_range_emit
  keeps_in_range_handler : keeps.
#[local] Hint Extern 2 (keeps _ (bind _ _)) => apply keeps_bind; [|intro] : keeps.
#[local] Hint Extern 2 (keeps _ (if _ then _ else _)) => apply keeps_if : keeps.
#[local] Hint Extern 2 (keeps in_range (update _)) =>
  apply keeps_update; intros ? ?; assumption : keeps.

Lemma keeps_in_range_perform (a : action) :
  keeps in_range (perform fromisoformat a).
Proof.
  destruct a as [[v|v|d]|b|now|now|now| |now dt]; cbn [perform user_edit];
    unfold _on_time_preset_clicked, _on_now_btn_clicked, _on_today_btn_clicked,
      _on_tomorrow_btn_clicked, _on_clear_btn_clicked, set_datetime;
    auto 30 with keeps.
  destruct (Py.split ":" (label b)) as [|? [|? [|? ?]]]; auto 30 with keeps.
Qed.

End Invariants.

Lemma string_app_assoc (a b c : string) : (a ++ b) ++ c = a ++ b ++ c.
Proof.
  induction a as [|x a IH]; cbn [append]; [reflexivity | now rewrite IH].
Qed.

(** What the reference parser returns is a day of the calendar and a time
    of day. *)
Lemma fromisoformat_valid (s : string) (d : Py.datetime) :
  Py.fromisoformat s = Some d -> Py.valid d = true.
Proof.
  unfold Py.fromisoformat. intros H.
  repeat match type of H with
         | (if ?b then _ else _) = _ => destruct b eqn:?; try discriminate H
         | match ?x with _ => _ end = _ => destruct x eqn:?; try discriminate H
         end.
  injection H as <-. assumption.
Qed.

Lemma linux_renderings_agree : renderings_agree linux.
Proof.
  intros d _. cbn [Py.strftime Py.directive Ascii.eqb Bool.eqb strftime_pads_year
                   linux date_time_format glib_format String.eqb
                   GLib.get_year GLib.get_month GLib.get_day_of_month].
  rewrite !string_app_assoc. reflexivity.
Qed.

Section Coherence.

Context {host : Platform}.
Variable fromisoformat : string -> option Py.datetime.

Hypothesis Hagree : renderings_agree host.
Hypothesis Hvalid : forall s d, fromisoformat s = Some d -> Py.valid d = true.

Lemma handler_makes_coherent (self : DateTime) :
  in_range self -> coherent (state_after (_on_date_time_changed self)).
Proof.
  intros H. rewrite (on_date_time_changed_in_range self H).
  split; [exact H | right; reflexivity].
Qed.

Lemma keeps_coherent_hour (v : Z) : keeps coherent (hour_set_value v).
Proof.
  intros self [[Hh Hm] Hs]. unfold hour_set_value.
  destruct (Gtk.clamp 0 23 v =? hour self).
  - split; [split|]; assumption.
  - apply handler_makes_coherent. split; cbn; [apply clamp_range; lia | exact Hm].
Qed.

Lemma keeps_coherent_minutes (v : Z) : keeps coherent (minutes_set_value v).
Proof.
  intros self [[Hh Hm] Hs]. unfold minutes_set_value.
  destruct (Gtk.clamp 0 59 v =? minutes self).
  - split; [split|]; assumption.
  - apply handler_makes_coherent. split; cbn; [exact Hh | apply clamp_range; lia].
Qed.

Lemma keeps_coherent_calendar (d : GLib.date_time) :
  keeps coherent (calendar_select_day d).
Proof.
  intros self [Hr Hs]. unfold calendar_select_day.
  destruct (GLib.eqb d (calendar self) && negb select_day_reemits).
  - split; assumption.
  - apply handler_makes_coherent. exact Hr.
Qed.

Lemma keeps_coherent_emit : keeps coherent emit_changed.
Proof. intros self H. exact H. Qed.

Lemma keeps_coherent_lock (b : bool) :
  keeps coherent (update (with_lock_signals b)).
Proof. intros self H. exact H. Qed.

Lemma keeps_coherent_clear : keeps coherent _on_clear_btn_clicked.
Proof.
  intros self [Hr _]. split; [exact Hr | left; reflexivity].
Qed.

Create HintDb coherent.
#[local] Hint Resolve keeps_ret keeps_raise keeps_or_raise keeps_coherent_hour
  keeps_coherent_minutes keeps_coherent_calendar keeps_coherent_emit
  keeps_coherent_lock : coherent.
#[local] Hint Extern 2 (keeps _ (bind _ _)) => apply keeps_bind; [|intro] : coherent.
#[local] Hint Extern 2 (keeps _ (if _ then _ else _)) => apply keeps_if : coherent.

Lemma coherent_body_on_raise (body : M string) (self : DateTime) :
  keeps coherent body -> coherent self ->
  let r := (update (with_lock_signals true) ;;
            dt <- body ;;
            update (with_datetime dt) ;;
            update (with_lock_signals false)) self in
  returned r <> Ok tt -> coherent (state_after r).
Proof.
  intros Hb Hc. cbn zeta. rewrite bind_update.
  specialize (Hb (with_lock_signals true self) Hc). unfold bind.
  destruct (body (with_lock_signals true self)) as [[s|e] st'];
    cbn [state_after returned fst snd update] in *.
  - intros H. exfalso. apply H. reflexivity.
  - intros _. exact Hb.
Qed.

Lemma keeps_coherent_set_datetime (now : Py.datetime) (dt : string) :
  keeps coherent (set_datetime fromisoformat now dt).
Proof.
  intros self Hc.
  destruct (String.eqb_spec dt "") as [->|Hne].
  { rewrite set_datetime_empty. split; [split; cbn; lia | left; reflexivity]. }
  destruct (fromisoformat dt) as [d|] eqn:Hp.
  2:{ rewrite (set_datetime_unparsed fromisoformat now dt self Hne Hp). exact Hc. }
  pose proof (Hvalid dt d Hp) as Hv.
  assert (Hcase : four_digit_year strftime_pads_year (Py.year d)
                  \/ (strftime_pads_year = false /\ Py.year d < 1000)).
  { unfold four_digit_year. destruct strftime_pads_year; [left; left; reflexivity|].
    destruct (Z.lt_ge_cases (Py.year d) 1000); [right; split; [reflexivity|assumption]|].
    left. right. lia. }
  destruct Hcase as [Hy|[Hpad Hy]].
  - rewrite (set_datetime_valid fromisoformat now dt self d Hne Hp Hv Hy).
    pose proof (valid_bounds d Hv) as B.
    split; [split; cbn; lia|]. right.
    unfold spec_stamp. cbn [datetime hour minutes calendar state_after snd].
    rewrite <- (Hagree d Hv). symmetry. apply strftime_minutes; assumption.
  - pose proof (set_datetime_short_year fromisoformat now dt self d Hpad Hne Hp Hv Hy)
      as Hr.
    revert Hr. unfold set_datetime. intros Hr.
    apply coherent_body_on_raise; [auto 30 with coherent | exact Hc |].
    rewrite Hr. discriminate.
Qed.

Lemma keeps_coherent_perform (a : action) :
  keeps coherent (perform fromisoformat a).
Proof.
  destruct a as [[v|v|d]|b|now|now|now| |now dt]; cbn [perform user_edit];
    try (unfold _on_time_preset_clicked, _on_now_btn_clicked,
           _on_today_btn_clicked, _on_tomorrow_btn_clicked;
         auto 30 using keeps_coherent_set_datetime with coherent; fail).
  - unfold _on_time_preset_clicked.
    destruct (Py.split ":" (label b)) as [|? [|? [|? ?]]]; auto 30 with coherent.
  - apply keeps_coherent_clear.
Qed.

End Coherence.

(** ** Getters on a stamp *)

Lemma canonical_fields_of_stamp (y m d h mi : Z) :
  0 <= y < 10000 -> 0 <= m < 100 -> 0 <= d < 100 -> 0 <= h < 100 ->
  0 <= mi < 100 ->
  canonical_fields (stamp y m d h mi) = Some (y, m, d, h, mi).
Proof.
  intros Hy Hm Hd Hh Hmi.
  unfold stamp, four_digits, two_digits.
  cbn [append canonical_fields Ascii.eqb Bool.eqb andb].
  change (str4 (digit_char (y / 1000)) (digit_char (y / 100 mod 10))
               (digit_char (y mod 100 / 10)) (digit_char (y mod 100 mod 10)))
    with (four_digits y).
  change (str2 (digit_char (m / 10)) (digit_char (m mod 10))) with (two_digits m).
  change (str2 (digit_char (d / 10)) (digit_char (d mod 10))) with (two_digits d).
  change (str2 (digit_char (h / 10)) (digit_char (h mod 10))) with (two_digits h).
  change (str2 (digit_char (mi / 10)) (digit_char (mi mod 10)))
    with (two_digits mi).
  rewrite int_four_digits, !int_two_digits by assumption. reflexivity.
Qed.

Lemma get_datetime_as_int_stamp (self : DateTime) (y m d h mi : Z) :
  datetime self = stamp y m d h mi ->
  0 <= y < 10000 -> 0 <= m < 100 -> 0 <= d < 100 -> 0 <= h < 100 ->
  0 <= mi < 100 ->
  get_datetime_as_int self = Ok (stamp_number y m d h mi).
Proof.
  intros Hs Hy Hm Hd Hh Hmi. unfold get_datetime_as_int. rewrite Hs.
  destruct (String.eqb_spec (stamp y m d h mi) "") as [E|_];
    [exfalso; exact (stamp_not_empty _ _ _ _ _ E)|].
  cbn [negb]. rewrite stamp_without_T, int_fourteen_digits by assumption.
  reflexivity.
Qed.

Lemma get_human_datetime_stamp {host : Platform} (self : DateTime)
      (y m d h mi : Z) :
  datetime self = stamp y m d h mi ->
  get_human_datetime self
  = two_digits h ++ ":" ++ two_digits mi ++ ", "
    ++ date_time_format (calendar self) "%d %B, %Y".
Proof.
  intros Hs. unfold get_human_datetime. rewrite Hs.
  destruct (String.eqb_spec (stamp y m d h mi) "") as [E|_];
    [exfalso; exact (stamp_not_empty _ _ _ _ _ E)|].
  cbn [negb]. destruct (stamp_slices y m d h mi) as (_ & _ & _ & S4 & S5).
  rewrite S4, S5. reflexivity.
Qed.

Lemma radix_lt (a b c d : Z) :
  0 <= b < 100 -> 0 <= d < 100 ->
  (a * 100 + b < c * 100 + d <-> a < c \/ (a = c /\ b < d)).
Proof. intros Hb Hd. split; intros H; lia. Qed.

Lemma radix_eq (a b c d : Z) :
  0 <= b < 100 -> 0 <= d < 100 ->
  (a * 100 + b = c * 100 + d <-> a = c /\ b = d).
Proof. intros Hb Hd. split; intros H; lia. Qed.

Lemma scale_lt (a b : Z) : a * 100 < b * 100 <-> a < b.
Proof. split; intros H; lia. Qed.

Lemma scale_eq (a b : Z) : a * 100 = b * 100 <-> a = b.
Proof. split; intros H; lia. Qed.

Lemma stamp_number_order (y1 m1 d1 h1 n1 y2 m2 d2 h2 n2 : Z) :
  0 <= m1 < 100 -> 0 <= d1 < 100 -> 0 <= h1 < 100 -> 0 <= n1 < 100 ->
  0 <= m2 < 100 -> 0 <= d2 < 100 -> 0 <= h2 < 100 -> 0 <= n2 < 100 ->
  (earlier (y1, m1, d1, h1, n1) (y2, m2, d2, h2, n2)
   <-> stamp_number y1 m1 d1 h1 n1 < stamp_number y2 m2 d2 h2 n2) /\
  (stamp_number y1 m1 d1 h1 n1 = stamp_number y2 m2 d2 h2 n2
   <-> (y1, m1, d1, h1, n1) = (y2, m2, d2, h2, n2)).
Proof.
  intros Bm1 Bd1 Bh1 Bn1 Bm2 Bd2 Bh2 Bn2.
  assert (Hsame : (y1, m1, d1, h1, n1) = (y2, m2, d2, h2, n2) ->
                  stamp_number y1 m1 d1 h1 n1 = stamp_number y2 m2 d2 h2 n2)
    by (intros E; injection E as -> -> -> -> ->; reflexivity).
  revert Hsame. unfold earlier, stamp_number.
  set (a1 := y1 * 100 + m1). set (a2 := y2 * 100 + m2).
  set (b1 := a1 * 100 + d1). set (b2 := a2 * 100 + d2).
  set (c1 := b1 * 100 + h1). set (c2 := b2 * 100 + h2).
  set (e1 := c1 * 100 + n1). set (e2 := c2 * 100 + n2).
  pose proof (radix_lt y1 m1 y2 m2 Bm1 Bm2) as La. fold a1 a2 in La.
  pose proof (radix_lt a1 d1 a2 d2 Bd1 Bd2) as Lb. fold b1 b2 in Lb.
  pose proof (radix_lt b1 h1 b2 h2 Bh1 Bh2) as Lc. fold c1 c2 in Lc.
  pose proof (radix_lt c1 n1 c2 n2 Bn1 Bn2) as Le. fold e1 e2 in Le.
  pose proof (radix_eq y1 m1 y2 m2 Bm1 Bm2) as Ea. fold a1 a2 in Ea.
  pose proof (radix_eq a1 d1 a2 d2 Bd1 Bd2) as Eb. fold b1 b2 in Eb.
  pose proof (radix_eq b1 h1 b2 h2 Bh1 Bh2) as Ec. fold c1 c2 in Ec.
  pose proof (radix_eq c1 n1 c2 n2 Bn1 Bn2) as Ee. fold e1 e2 in Ee.
  clearbody a1 a2 b1 b2 c1 c2 e1 e2. intros Hsame.
  pose proof (scale_lt e1 e2) as Hlt. pose proof (scale_eq e1 e2) as Heq.
  split; split.
  - intros H. apply Hlt, Le.
    destruct H as [H|[E1 [H|[E2 [H|[E3 [H|[E4 H]]]]]]]].
    + left. apply Lc. left. apply Lb. left. apply La. left. exact H.
    + left. apply Lc. left. apply Lb. left. apply La. right. split; assumption.
    + left. apply Lc. left. apply Lb. right. split; [apply Ea; split; assumption | exact H].
    + left. apply Lc. right.
      split; [apply Eb; split; [apply Ea; split; assumption | assumption] | exact H].
    + right.
      split; [apply Ec; split;
              [apply Eb; split; [apply Ea; split; assumption | assumption]
              | assumption]
             | exact H].
  - intros H. apply Hlt, Le in H.
    destruct H as [H|[E H]].
    + apply Lc in H. destruct H as [H|[E H]].
      * apply Lb in H. destruct H as [H|[E H]].
        -- apply La in H. destruct H as [H|[E H]]; [left; exact H|].
           right. split; [exact E | left; exact H].
        -- apply Ea in E. destruct E as [E1 E2].
           right. split; [exact E1|]. right. split; [exact E2|]. left. exact H.
      * apply Eb in E. destruct E as [E E3]. apply Ea in E. destruct E as [E1 E2].
        right. split; [exact E1|]. right. split; [exact E2|].
        right. split; [exact E3|]. left. exact H.
    + apply Ec in E. destruct E as [E E4]. apply Eb in E. destruct E as [E E3].
      apply Ea in E. destruct E as [E1 E2].
      right. split; [exact E1|]. right. split; [exact E2|].
      right. split; [exact E3|]. right. split; [exact E4 | exact H].
  - intros E. apply Heq, Ee in E. destruct E as [E E5].
    apply Ec in E. destruct E as [E E4]. apply Eb in E. destruct E as [E E3].
    apply Ea in E. destruct E as [E1 E2]. subst. reflexivity.
  - exact Hsame.
Qed.


(** ** What [set_datetime] does beyond canonical strings *)

Section Setting.

Context {host : Platform}.
Variable fromisoformat : string -> option Py.datetime.

(** X1.  Whatever the form of a non-empty argument, once the parser reads
    it as a day and time (with a year rendered on four digits),
    [set_datetime] returns, stores the stamp of that day, hour and minute
    with the seconds replaced by 00, shows the same fields on the spin
    buttons and the calendar, unlocks signals and emits nothing; the
    stored string is a valid canonical string. *)
Theorem set_datetime_normalises (now : Py.datetime) (dt : string)
        (self : DateTime) (d : Py.datetime) :
  dt <> "" -> fromisoformat dt = Some d -> Py.valid d = true ->
  four_digit_year strftime_pads_year (Py.year d) ->
  let r := set_datetime fromisoformat now dt self in
  returned r = Ok tt /\
  get_datetime (state_after r)
  = stamp (Py.year d) (Py.month d) (Py.day d) (Py.hour d) (Py.minute d) /\
  canonical_fields (get_datetime (state_after r)) = Some (fields_of d) /\
  valid_canonical (get_datetime (state_after r)) = true /\
  hour (state_after r) = Py.hour d /\
  minutes (state_after r) = Py.minute d /\
  calendar (state_after r) = GLib.mk_date_time (Py.year d) (Py.month d) (Py.day d) /\
  lock_signals (state_after r) = false /\
  changed (state_after r) = changed self.
Proof.
  intros Hne Hp Hv Hy. cbn zeta.
  rewrite (set_datetime_valid fromisoformat now dt self d Hne Hp Hv Hy).
  pose proof (valid_bounds d Hv) as B.
  assert (Hc : canonical_fields
                 (stamp (Py.year d) (Py.month d) (Py.day d) (Py.hour d) (Py.minute d))
               = Some (fields_of d))
    by (apply canonical_fields_of_stamp; lia).
  cbn [returned state_after fst snd get_datetime datetime hour minutes calendar
       lock_signals changed].
  repeat split; try assumption.
  unfold valid_canonical. rewrite Hc. unfold fields_of.
  unfold Py.valid in Hv. apply andb_true_iff in Hv. destruct Hv as [Hd Ht].
  rewrite Hd. apply check_time_fields_bounds in Ht.
  unfold Py.check_time_fields. rewrite !andb_true_iff, !Z.leb_le. lia.
Qed.

(** X2.  A call of [set_datetime] that returns overwrites the whole
    instance: started from any other instance it returns as well and
    leaves the same string, sub-controls and lock, only the count of
    emissions being carried over.  In particular a second call with the
    same argument changes nothing. *)
Theorem set_datetime_overwrites (now : Py.datetime) (dt : string)
        (self other : DateTime) :
  returned (set_datetime fromisoformat now dt self) = Ok tt ->
  set_datetime fromisoformat now dt other
  = (Ok tt,
     with_changed (changed other)
       (state_after (set_datetime fromisoformat now dt self))) /\
  set_datetime fromisoformat now dt
    (state_after (set_datetime fromisoformat now dt self))
  = set_datetime fromisoformat now dt self.
Proof.
  intros Hok.
  destruct (set_datetime_returns_inv fromisoformat now dt self Hok)
    as (s & h & m & day & H).
  rewrite !H. split; reflexivity.
Qed.

(** X3.  After [set_datetime] raised on an argument the parser rejects,
    signals stay locked: an edit of a sub-control that follows returns
    without emitting, while Clear, which emits by itself, still does; the
    next call of [set_datetime] that returns unlocks them. *)
Theorem rejected_argument_mutes_edits (now now' : Py.datetime) (dt dt' : string)
        (self : DateTime) (e : edit) :
  dt <> "" -> fromisoformat dt = None ->
  changes e self = true ->
  returned (set_datetime fromisoformat now' dt'
              (state_after (set_datetime fromisoformat now dt self))) = Ok tt ->
  let failed := state_after (set_datetime fromisoformat now dt self) in
  lock_signals failed = true /\
  returned (user_edit e failed) = Ok tt /\
  changed (state_after (user_edit e failed)) = changed self /\
  lock_signals (state_after (user_edit e failed)) = true /\
  changed (state_after (_on_clear_btn_clicked failed)) = S (changed self) /\
  lock_signals (state_after (set_datetime fromisoformat now' dt' failed)) = false.
Proof.
  intros Hne Hp He Hok. cbn zeta.
  rewrite (set_datetime_unparsed fromisoformat now dt self Hne Hp) in *.
  cbn [state_after snd] in *.
  assert (He' : changes e (with_lock_signals true self) = true)
    by (destruct e; exact He).
  destruct (user_edit_emissions e (with_lock_signals true self) He')
    as (R & L & C).
  pose proof (set_datetime_lock fromisoformat now' dt' (with_lock_signals true self))
    as Hl.
  rewrite Hok in Hl.
  repeat split; try assumption; reflexivity.
Qed.

(** X4.  Where the C library renders the year with no leading zeros,
    [set_datetime] raises ValueError for every argument the parser reads
    as a day in a year below 1000, whatever its form; signals stay locked
    and nothing is emitted. *)
Theorem set_datetime_short_year_raises (now : Py.datetime) (dt : string)
        (self : DateTime) (d : Py.datetime) :
  strftime_pads_year = false ->
  dt <> "" -> fromisoformat dt = Some d -> Py.valid d = true ->
  Py.year d < 1000 ->
  let r := set_datetime fromisoformat now dt self in
  returned r = Raise ValueError /\
  lock_signals (state_after r) = true /\
  changed (state_after r) = changed self.
Proof.
  intros Hpad Hne Hp Hv Hy. cbn zeta.
  pose proof (set_datetime_short_year fromisoformat now dt self d Hpad Hne Hp Hv Hy)
    as Hr.
  pose proof (set_datetime_lock fromisoformat now dt self) as Hl.
  rewrite Hr in Hl.
  split; [exact Hr | split; [exact Hl | apply set_datetime_changed]].
Qed.

End Setting.

(** ** Edits, presets and sessions *)

Section Composition.

Context {host : Platform}.
Variable fromisoformat : string -> option Py.datetime.

(** X5.  After [set_datetime] stored a day and time, on a host whose
    calendar renders that day on eight digits, an edit of the minutes
    changes the minute digits of the stored string and nothing else, an
    edit of the hour changes the hour digits and nothing else, and each
    emits exactly one [changed]. *)
Theorem edit_after_set_datetime (now : Py.datetime) (dt : string)
        (self : DateTime) (d : Py.datetime) (v w : Z) :
  dt <> "" -> fromisoformat dt = Some d -> Py.valid d = true ->
  four_digit_year strftime_pads_year (Py.year d) ->
  date_time_format (GLib.mk_date_time (Py.year d) (Py.month d) (Py.day d)) "%Y%m%d"
  = four_digits (Py.year d) ++ two_digits (Py.month d) ++ two_digits (Py.day d) ->
  0 <= v <= 59 -> v <> Py.minute d -> 0 <= w <= 23 -> w <> Py.hour d ->
  let set := state_after (set_datetime fromisoformat now dt self) in
  user_edit (EditMinutes v) set
  = (Ok tt,
     mk_DateTime (stamp (Py.year d) (Py.month d) (Py.day d) (Py.hour d) v)
       false (Py.hour d) v
       (GLib.mk_date_time (Py.year d) (Py.month d) (Py.day d))
       (S (changed self))) /\
  user_edit (EditHour w) set
  = (Ok tt,
     mk_DateTime (stamp (Py.year d) (Py.month d) (Py.day d) w (Py.minute d))
       false w (Py.minute d)
       (GLib.mk_date_time (Py.year d) (Py.month d) (Py.day d))
       (S (changed self))).
Proof.
  intros Hne Hp Hv Hy Hfmt Bv Nv Bw Nw. cbn zeta.
  rewrite (set_datetime_valid fromisoformat now dt self d Hne Hp Hv Hy).
  pose proof (valid_bounds d Hv) as B. cbn [state_after snd].
  split.
  - rewrite user_edit_runs_handler.
    + rewrite on_date_time_changed_in_range by (split; cbn; lia).
      unfold spec_stamp. cbn [edited with_minutes datetime lock_signals hour
                               minutes calendar changed].
      rewrite Hfmt, !zfill2_str by lia. unfold stamp.
      rewrite !string_app_assoc. reflexivity.
    + cbn [changes minutes].
      apply andb_true_iff. split; [apply andb_true_iff; split; apply Z.leb_le; lia|].
      apply negb_true_iff, Z.eqb_neq. exact Nv.
  - rewrite user_edit_runs_handler.
    + rewrite on_date_time_changed_in_range by (split; cbn; lia).
      unfold spec_stamp. cbn [edited with_hour datetime lock_signals hour
                               minutes calendar changed].
      rewrite Hfmt, !zfill2_str by lia. unfold stamp.
      rewrite !string_app_assoc. reflexivity.
    + cbn [changes hour].
      apply andb_true_iff. split; [apply andb_true_iff; split; apply Z.leb_le; lia|].
      apply negb_true_iff, Z.eqb_neq. exact Nw.
Qed.

(** X6.  A time preset pressed while the spin buttons already show its
    time does nothing at all: nothing is stored and nothing emitted, so a
    value that is unset, after Clear for instance, stays unset. *)
Theorem time_preset_already_shown (b : time_preset) (self : DateTime) :
  hour self = preset_hour b -> minutes self = 0 ->
  _on_time_preset_clicked (label b) self = (Ok tt, self) /\
  _on_time_preset_clicked (label b) (state_after (_on_clear_btn_clicked self))
  = (Ok tt, state_after (_on_clear_btn_clicked self)) /\
  get_datetime
    (state_after
       (_on_time_preset_clicked (label b)
          (state_after (_on_clear_btn_clicked self)))) = "".
Proof.
  intros Hh Hm.
  assert (G : forall st, hour st = preset_hour b -> minutes st = 0 ->
                         _on_time_preset_clicked (label b) st = (Ok tt, st)).
  { intros st Eh Em.
    destruct (label_split b) as (hs & ms & Hsp & Hih & Him).
    unfold _on_time_preset_clicked. rewrite Hsp, Hih. cbn [or_raise].
    rewrite bind_ret. unfold bind, hour_set_value.
    rewrite clamp_id by (destruct b; cbn; lia).
    rewrite Eh, Z.eqb_refl. cbn [ret]. rewrite Him. cbn [or_raise ret].
    unfold minutes_set_value. rewrite clamp_id by lia.
    rewrite Em. reflexivity. }
  split; [apply G; assumption|].
  assert (G' : _on_time_preset_clicked (label b)
                 (state_after (_on_clear_btn_clicked self))
               = (Ok tt, state_after (_on_clear_btn_clicked self)))
    by (apply G; assumption).
  split; [exact G'|]. rewrite G'. reflexivity.
Qed.

(** X7.  A time preset that changes a spin button leaves as stored string
    the stamp of the day on the calendar at the preset hour and minute 0,
    whatever was stored and whatever the minutes were before. *)
Theorem time_preset_stores_its_time (b : time_preset) (self : DateTime) :
  hour self <> preset_hour b \/ minutes self <> 0 ->
  datetime (state_after (_on_time_preset_clicked (label b) self))
  = spec_stamp (with_minutes 0 (with_hour (preset_hour b) self)).
Proof.
  intros Hch. rewrite time_preset_datetime.
  destruct (Z.eqb_spec (hour self) (preset_hour b)) as [Eh|Nh],
           (Z.eqb_spec (minutes self) 0) as [Em|Nm];
    cbn [andb]; try reflexivity.
  destruct Hch; contradiction.
Qed.

(** X8.  Clear does not reset the sub-controls, so the first edit after
    it makes the value set again, from the day and time still on display
    with the edited sub-control changed. *)
Theorem edit_after_clear (self : DateTime) (e : edit) :
  changes e self = true -> in_range (edited e self) ->
  let cleared := state_after (_on_clear_btn_clicked self) in
  get_datetime cleared = "" /\
  returned (user_edit e cleared) = Ok tt /\
  get_datetime (state_after (user_edit e cleared)) = spec_stamp (edited e self) /\
  get_datetime (state_after (user_edit e cleared)) <> "" /\
  changed (state_after (user_edit e cleared))
  = (if lock_signals self then S (changed self) else S (S (changed self))).
Proof.
  intros He Hr. cbn zeta.
  assert (He' : changes e (state_after (_on_clear_btn_clicked self)) = true)
    by (destruct e; exact He).
  rewrite (user_edit_runs_handler e _ He').
  assert (Hr' : in_range (edited e (state_after (_on_clear_btn_clicked self))))
    by (destruct e; exact Hr).
  rewrite (on_date_time_changed_in_range _ Hr').
  assert (Hs : spec_stamp (edited e (state_after (_on_clear_btn_clicked self)))
               = spec_stamp (edited e self)) by (destruct e; reflexivity).
  cbn [returned state_after fst snd get_datetime datetime changed].
  rewrite Hs.
  split; [reflexivity | split; [reflexivity | split; [reflexivity | split]]].
  - unfold spec_stamp. intros E.
    apply (append_not_empty
             (date_time_format (calendar (edited e self)) "%Y%m%d")
             ("T" ++ Py.zfill 2 (Py.str (hour (edited e self)))
              ++ Py.zfill 2 (Py.str (minutes (edited e self))) ++ "00"));
      [discriminate | exact E].
  - destruct e, self as [dt lock h m cal n]; destruct lock; reflexivity.
Qed.

End Composition.

(** ** The getters on set values *)

(** X9.  On canonical strings [get_datetime_as_int] keeps the order of
    time: of two instances holding canonical strings, the one with the
    earlier day and time gives the smaller integer, and the integers are
    equal exactly when the strings are. *)
Theorem get_datetime_as_int_keeps_order (a b : DateTime)
        (fa fb : Z * Z * Z * Z * Z) :
  canonical_fields (datetime a) = Some fa ->
  canonical_fields (datetime b) = Some fb ->
  exists na nb : Z,
    get_datetime_as_int a = Ok na /\ get_datetime_as_int b = Ok nb /\
    (earlier fa fb <-> na < nb) /\
    (na = nb <-> get_datetime a = get_datetime b).
Proof.
  destruct fa as [[[[y1 m1] d1] h1] n1], fb as [[[[y2 m2] d2] h2] n2].
  intros Ha Hb.
  apply canonical_fields_stamp in Ha, Hb.
  destruct Ha as (Sa & Ya & Ma & Da & Ha & Na).
  destruct Hb as (Sb & Yb & Mb & Db & Hb & Nb).
  exists (stamp_number y1 m1 d1 h1 n1), (stamp_number y2 m2 d2 h2 n2).
  destruct (stamp_number_order y1 m1 d1 h1 n1 y2 m2 d2 h2 n2) as [Ho He];
    try assumption.
  split; [apply (get_datetime_as_int_stamp a y1 m1 d1 h1 n1); assumption|].
  split; [apply (get_datetime_as_int_stamp b y2 m2 d2 h2 n2); assumption|].
  split; [exact Ho|].
  unfold get_datetime. rewrite Sa, Sb. split.
  - intros E. apply He in E. injection E as -> -> -> -> ->. reflexivity.
  - intros E. apply He.
    assert (F : canonical_fields (stamp y1 m1 d1 h1 n1)
                = canonical_fields (stamp y2 m2 d2 h2 n2)) by (rewrite E; reflexivity).
    rewrite !canonical_fields_of_stamp in F by assumption.
    injection F as -> -> -> -> ->. reflexivity.
Qed.

(** X10.  For a valid canonical string [get_datetime_as_int] returns at
    least 10101000000 (the first minute of year 1), never the 0 it
    returns for the unset value. *)
Theorem get_datetime_as_int_set_is_positive (self : DateTime) :
  valid_canonical (datetime self) = true ->
  exists n : Z,
    get_datetime_as_int self = Ok n /\ 10101000000 <= n /\
    get_datetime_as_int self <> get_datetime_as_int (with_datetime "" self).
Proof.
  unfold valid_canonical. intros Hv.
  destruct (canonical_fields (datetime self)) as [[[[[y m] d] h] mi]|] eqn:Hc;
    [|discriminate].
  apply andb_true_iff in Hv. destruct Hv as [Hd Ht].
  apply check_date_fields_bounds in Hd. apply check_time_fields_bounds in Ht.
  apply canonical_fields_stamp in Hc.
  destruct Hc as (Hs & By & Bm & Bd & Bh & Bmi).
  exists (stamp_number y m d h mi).
  rewrite (get_datetime_as_int_stamp self y m d h mi Hs By Bm Bd Bh Bmi).
  assert (10101000000 <= stamp_number y m d h mi)
    by (unfold stamp_number; lia).
  split; [reflexivity | split; [assumption|]].
  cbn. intros E. injection E as E. lia.
Qed.

(** X11.  In a state that holds a canonical string, [get_human_datetime]
    is the hour and the minute of that string, separated by a colon, then
    a comma and the day selected on the calendar rendered by [%d %B, %Y]:
    the time is read off the string and the day off the calendar. *)
Theorem get_human_datetime_set {host : Platform} (self : DateTime)
        (y m d h mi : Z) :
  canonical_fields (datetime self) = Some (y, m, d, h, mi) ->
  get_human_datetime self
  = two_digits h ++ ":" ++ two_digits mi ++ ", "
    ++ date_time_format (calendar self) "%d %B, %Y".
Proof.
  intros Hc. apply canonical_fields_stamp in Hc. destruct Hc as [Hs _].
  apply (get_human_datetime_stamp self y m d h mi Hs).
Qed.

Section Reading.

Context {host : Platform}.

(** X12.  For every valid canonical string whose year is rendered on four
    digits (every year from 1000 on, and every year where the C library
    pads), [set_datetime] with the reference parser returns and the
    getters then give the string back unchanged, the number spelt by its
    digits, and its time followed by the calendar's rendering of its
    day. *)
Theorem set_then_get_four_digit_year (now : Py.datetime) (s : string)
        (self : DateTime) (y m d h mi : Z) :
  valid_canonical s = true ->
  canonical_fields s = Some (y, m, d, h, mi) ->
  four_digit_year strftime_pads_year y ->
  let r := set_datetime Py.fromisoformat now s self in
  returned r = Ok tt /\
  get_datetime (state_after r) = s /\
  get_datetime_as_int (state_after r) = Ok (stamp_number y m d h mi) /\
  get_human_datetime (state_after r)
  = two_digits h ++ ":" ++ two_digits mi ++ ", "
    ++ date_time_format (GLib.mk_date_time y m d) "%d %B, %Y".
Proof.
  intros Hv Hc Hy. cbn zeta.
  rewrite (set_datetime_canonical now s self y m d h mi Hc Hv Hy).
  apply canonical_fields_stamp in Hc.
  destruct Hc as (Hs & By & Bm & Bd & Bh & Bmi).
  cbn [returned state_after fst snd get_datetime datetime].
  split; [reflexivity | split; [reflexivity | split]].
  - apply get_datetime_as_int_stamp; assumption.
  - rewrite (get_human_datetime_stamp _ y m d h mi) by exact Hs. reflexivity.
Qed.

(** X13.  Tomorrow pressed on the last day of the calendar, 31 December
    9999, raises OverflowError before anything is touched: the instance
    is left exactly as it was and nothing is emitted; on no other day does
    the next day fail to exist. *)
Theorem tomorrow_on_the_last_day (now : Py.datetime) (self : DateTime) :
  Py.valid now = true -> Py.add_one_day now = None ->
  (Py.year now, Py.month now, Py.day now) = (9999, 12, 31) /\
  _on_tomorrow_btn_clicked Py.fromisoformat now self = (Raise OverflowError, self).
Proof.
  intros Hv Hn. split.
  - destruct now as [y m d h mi s].
    unfold Py.valid in Hv. apply andb_true_iff in Hv. destruct Hv as [Hd _].
    apply check_date_fields_bounds in Hd.
    unfold Py.add_one_day in Hn.
    cbn [Py.year Py.month Py.day Py.hour Py.minute Py.second] in *.
    destruct (Z.ltb_spec d (Py.days_in_month y m)); [discriminate|].
    destruct (Z.ltb_spec m 12); [discriminate|].
    destruct (Z.ltb_spec y 9999); [discriminate|].
    assert (Em : m = 12) by lia. assert (Ey : y = 9999) by lia. subst m y.
    change (Py.days_in_month 9999 12) with 31 in *.
    assert (Ed : d = 31) by lia. subst d. reflexivity.
  - unfold _on_tomorrow_btn_clicked. rewrite Hn. reflexivity.
Qed.

End Reading.

(** ** Sessions of actions *)

Section Sessions.

Context {host : Platform}.
Variable fromisoformat : string -> option Py.datetime.

Lemma session_keeps (P : DateTime -> Prop) :
  (forall a, keeps P (perform fromisoformat a)) ->
  forall actions self, P self -> P (session fromisoformat actions self).
Proof.
  intros Hk actions. induction actions as [|a rest IH]; intros self H.
  - exact H.
  - cbn [session]. apply IH, Hk, H.
Qed.

(** X14.  Whatever is done to a widget after its construction (edits with
    any value, button presses, calls of [set_datetime] with any argument,
    whether they return or raise), the hour spin button stays within 0..23
    and the minute spin button within 0..59. *)
Theorem spin_buttons_stay_in_range (actions : list action) (now : Py.datetime) :
  0 <= hour (session fromisoformat actions (init now)) <= 23 /\
  0 <= minutes (session fromisoformat actions (init now)) <= 59.
Proof.
  apply (session_keeps in_range (keeps_in_range_perform fromisoformat)).
  split; cbn; lia.
Qed.

(** X15.  On a host that renders a day the same way through GLib and
    through the C library, and with a parser that returns days of the
    calendar, the stored string never disagrees with the sub-controls:
    after any session it is either empty or exactly the stamp of the
    selected day, the hour and the minutes on display. *)
Theorem stored_string_follows_sub_controls (actions : list action)
        (now : Py.datetime) :
  renderings_agree host ->
  (forall s d, fromisoformat s = Some d -> Py.valid d = true) ->
  get_datetime (session fromisoformat actions (init now)) = "" \/
  get_datetime (session fromisoformat actions (init now))
  = spec_stamp (session fromisoformat actions (init now)).
Proof.
  intros Hagree Hvalid.
  assert (H : coherent (session fromisoformat actions (init now))).
  { apply (session_keeps coherent
             (keeps_coherent_perform fromisoformat Hagree Hvalid)).
    split; [split; cbn; lia | left; reflexivity]. }
  exact (proj2 H).
Qed.

Lemma press_emissions (m : M unit) (self : DateTime) :
  changed (state_after (m self)) = changed self ->
  (changed self <= changed (state_after ((m ;; emit_changed) self))
   <= changed self + 1)%nat.
Proof.
  intros H. unfold bind. destruct (m self) as [[[]|e] st];
    cbn [state_after snd emit_changed update with_changed changed] in *; lia.
Qed.

Lemma perform_emissions (a : action) (self : DateTime) :
  (changed self <= changed (state_after (perform fromisoformat a self))
   <= changed self
      + match a with
        | PressTime _ => 2
        | SetDateTime _ _ => 0
        | _ => 1
        end)%nat.
Proof.
  destruct a as [[v|v|d]|b|now|now|now| |now dt]; cbn [perform user_edit].
  - destruct (hour_set_value_frame v self) as [s ->]. cbn. unfold emissions.
    destruct (_ && _); lia.
  - destruct (minutes_set_value_frame v self) as [s ->]. cbn. unfold emissions.
    destruct (_ && _); lia.
  - destruct (calendar_select_day_frame d self) as [s ->]. cbn. unfold emissions.
    destruct (_ && _); lia.
  - destruct (time_preset_frame b self) as [s ->]. cbn. unfold steppers_changed.
    destruct (lock_signals self), (hour self =? preset_hour b),
      (minutes self =? 0); lia.
  - apply press_emissions, set_datetime_changed.
  - apply press_emissions, set_datetime_changed.
  - unfold _on_tomorrow_btn_clicked.
    destruct (Py.add_one_day now) as [d|]; cbn [or_raise].
    + rewrite bind_ret. apply press_emissions, set_datetime_changed.
    + cbn. lia.
  - cbn. lia.
  - rewrite set_datetime_changed. lia.
Qed.

(** X16.  No action makes the widget emit [changed] more than twice: a
    time preset emits at most two, a call of [set_datetime] none, every
    other action at most one, and the count never goes down; a session of
    n actions therefore emits at most 2 n. *)
Theorem emissions_are_bounded (a : action) (actions : list action)
        (self : DateTime) :
  (changed self <= changed (state_after (perform fromisoformat a self))
   <= changed self
      + match a with
        | PressTime _ => 2
        | SetDateTime _ _ => 0
        | _ => 1
        end)%nat /\
  (changed self <= changed (session fromisoformat actions self)
   <= changed self + 2 * length actions)%nat.
Proof.
  split; [apply perform_emissions|].
  revert self. induction actions as [|x rest IH]; intros self; cbn [session length].
  - lia.
  - specialize (IH (state_after (perform fromisoformat x self))).
    pose proof (perform_emissions x self) as H.
    destruct x; lia.
Qed.

End Sessions.

(** ** Instances of the further properties *)

Lemma set_datetime_normalises_witness :
  "2024-01-15 09:30:45" <> "" /\
  Py.fromisoformat "2024-01-15 09:30:45"
  = Some (Py.mk_datetime 2024 1 15 9 30 45) /\
  get_datetime
    (state_after
       (set_datetime (host := linux) Py.fromisoformat a_monday
          "2024-01-15 09:30:45" (init a_monday)))
  = "20240115T093000".
Proof.
  assert (Hne : "2024-01-15 09:30:45" <> "") by discriminate.
  assert (Hy : four_digit_year (strftime_pads_year (Platform := linux)) 2024)
    by (right; lia).
  split; [exact Hne | split; [reflexivity|]].
  pose proof (set_datetime_normalises (host := linux) Py.fromisoformat a_monday
                "2024-01-15 09:30:45" (init a_monday)
                (Py.mk_datetime 2024 1 15 9 30 45) Hne eq_refl eq_refl Hy) as H.
  cbn zeta in H. destruct H as (_ & H & _). exact H.
Defined.

Lemma set_datetime_overwrites_witness :
  returned
    (set_datetime (host := linux) Py.fromisoformat a_monday "20240116T000000"
       (init a_monday)) = Ok tt /\
  set_datetime (host := linux) Py.fromisoformat a_monday "20240116T000000" shown
  = (Ok tt,
     mk_DateTime "20240116T000000" false 0 0 (GLib.mk_date_time 2024 1 16) 0).
Proof.
  split; [reflexivity|].
  exact (proj1 (set_datetime_overwrites (host := linux) Py.fromisoformat a_monday
                  "20240116T000000" (init a_monday) shown eq_refl)).
Defined.

Lemma rejected_argument_mutes_edits_witness :
  "tomorrow" <> "" /\ Py.fromisoformat "tomorrow" = None /\
  changes (EditHour 7) shown = true /\
  changed
    (state_after
       (user_edit (host := linux) (EditHour 7)
          (state_after
             (set_datetime (host := linux) Py.fromisoformat a_monday "tomorrow"
                shown))))
  = changed shown.
Proof.
  assert (Hne : "tomorrow" <> "") by discriminate.
  split; [exact Hne | split; [reflexivity | split; [reflexivity|]]].
  pose proof (rejected_argument_mutes_edits (host := linux) Py.fromisoformat
                a_monday a_monday "tomorrow" "" shown (EditHour 7)
                Hne eq_refl eq_refl eq_refl) as H.
  cbn zeta in H. destruct H as (_ & _ & H & _). exact H.
Defined.

Lemma set_datetime_short_year_raises_witness :
  strftime_pads_year (Platform := linux) = false /\
  Py.fromisoformat "0999-01-15" = Some (Py.mk_datetime 999 1 15 0 0 0) /\
  returned
    (set_datetime (host := linux) Py.fromisoformat a_monday "0999-01-15" shown)
  = Raise ValueError.
Proof.
  assert (Hne : "0999-01-15" <> "") by discriminate.
  assert (Hy : Py.year (Py.mk_datetime 999 1 15 0 0 0) < 1000) by (cbn; lia).
  split; [reflexivity | split; [reflexivity|]].
  pose proof (set_datetime_short_year_raises (host := linux) Py.fromisoformat
                a_monday "0999-01-15" shown (Py.mk_datetime 999 1 15 0 0 0)
                eq_refl Hne eq_refl eq_refl Hy) as H.
  cbn zeta in H. exact (proj1 H).
Defined.

Lemma edit_after_set_datetime_witness :
  Py.fromisoformat "20240116T000000" = Some (Py.mk_datetime 2024 1 16 0 0 0) /\
  user_edit (host := linux) (EditMinutes 30)
    (state_after
       (set_datetime (host := linux) Py.fromisoformat a_monday "20240116T000000"
          shown))
  = (Ok tt,
     mk_DateTime "20240116T003000" false 0 30 (GLib.mk_date_time 2024 1 16) 1).
Proof.
  assert (Hne : "20240116T000000" <> "") by discriminate.
  assert (Hy : four_digit_year (strftime_pads_year (Platform := linux)) 2024)
    by (right; lia).
  assert (Bv : 0 <= 30 <= 59) by lia.
  assert (Nv : 30 <> Py.minute (Py.mk_datetime 2024 1 16 0 0 0)) by discriminate.
  assert (Bw : 0 <= 10 <= 23) by lia.
  assert (Nw : 10 <> Py.hour (Py.mk_datetime 2024 1 16 0 0 0)) by discriminate.
  split; [reflexivity|].
  exact (proj1 (edit_after_set_datetime (host := linux) Py.fromisoformat a_monday
                  "20240116T000000" shown (Py.mk_datetime 2024 1 16 0 0 0) 30 10
                  Hne eq_refl eq_refl Hy eq_refl Bv Nv Bw Nw)).
Defined.

Lemma time_preset_already_shown_witness :
  hour (with_minutes 0 shown) = preset_hour Morning /\
  minutes (with_minutes 0 shown) = 0 /\
  _on_time_preset_clicked (host := linux) "09:00" (with_minutes 0 shown)
  = (Ok tt, with_minutes 0 shown).
Proof.
  split; [reflexivity | split; [reflexivity|]].
  exact (proj1 (time_preset_already_shown (host := linux) Morning
                  (with_minutes 0 shown) eq_refl eq_refl)).
Defined.

Lemma time_preset_stores_its_time_witness :
  minutes shown <> 0 /\
  datetime
    (state_after (_on_time_preset_clicked (host := linux) "09:00" shown))
  = "20240115T090000".
Proof.
  assert (Hm : minutes shown <> 0) by discriminate.
  split; [exact Hm|].
  exact (time_preset_stores_its_time (host := linux) Morning shown (or_intror Hm)).
Defined.

Lemma edit_after_clear_witness :
  changes (EditHour 7) shown = true /\
  get_datetime (state_after (_on_clear_btn_clicked shown)) = "" /\
  get_datetime
    (state_after
       (user_edit (host := linux) (EditHour 7)
          (state_after (_on_clear_btn_clicked shown))))
  = "20240115T070500".
Proof.
  assert (Hr : in_range (edited (EditHour 7) shown)) by (split; cbn; lia).
  split; [reflexivity|].
  pose proof (edit_after_clear (host := linux) shown (EditHour 7) eq_refl Hr) as H.
  cbn zeta in H. destruct H as (H1 & _ & H3 & _).
  split; [exact H1 | exact H3].
Defined.

Lemma get_datetime_as_int_keeps_order_witness :
  canonical_fields (datetime shown) = Some (2024, 1, 15, 9, 5) /\
  canonical_fields (datetime (with_datetime "20240116T000000" shown))
  = Some (2024, 1, 16, 0, 0) /\
  exists na nb : Z,
    get_datetime_as_int shown = Ok na /\
    get_datetime_as_int (with_datetime "20240116T000000" shown) = Ok nb /\
    (earlier (2024, 1, 15, 9, 5) (2024, 1, 16, 0, 0) <-> na < nb) /\
    (na = nb <->
     get_datetime shown = get_datetime (with_datetime "20240116T000000" shown)).
Proof.
  split; [reflexivity | split; [reflexivity|]].
  exact (get_datetime_as_int_keeps_order shown
           (with_datetime "20240116T000000" shown)
           (2024, 1, 15, 9, 5) (2024, 1, 16, 0, 0) eq_refl eq_refl).
Defined.

Lemma get_datetime_as_int_set_is_positive_witness :
  valid_canonical (datetime shown) = true /\
  exists n : Z,
    get_datetime_as_int shown = Ok n /\ 10101000000 <= n /\
    get_datetime_as_int shown <> get_datetime_as_int (with_datetime "" shown).
Proof.
  split; [reflexivity|].
  exact (get_datetime_as_int_set_is_positive shown eq_refl).
Defined.

Lemma get_human_datetime_set_witness :
  canonical_fields (datetime shown) = Some (2024, 1, 15, 9, 5) /\
  get_human_datetime (host := linux) shown = "09:05, 15 January, 2024".
Proof.
  split; [reflexivity|].
  exact (get_human_datetime_set (host := linux) shown 2024 1 15 9 5 eq_refl).
Defined.

Lemma set_then_get_four_digit_year_witness :
  valid_canonical "20240116T173000" = true /\
  get_datetime
    (state_after
       (set_datetime (host := linux) Py.fromisoformat a_monday "20240116T173000"
          shown))
  = "20240116T173000" /\
  get_datetime_as_int
    (state_after
       (set_datetime (host := linux) Py.fromisoformat a_monday "20240116T173000"
          shown))
  = Ok 20240116173000.
Proof.
  assert (Hy : four_digit_year (strftime_pads_year (Platform := linux)) 2024)
    by (right; lia).
  split; [reflexivity|].
  pose proof (set_then_get_four_digit_year (host := linux) a_monday
                "20240116T173000" shown 2024 1 16 17 30 eq_refl eq_refl Hy) as H.
  cbn zeta in H. destruct H as (_ & H2 & H3 & _).
  split; [exact H2 | exact H3].
Defined.

Lemma tomorrow_on_the_last_day_witness :
  Py.valid (Py.mk_datetime 9999 12 31 23 59 0) = true /\
  Py.add_one_day (Py.mk_datetime 9999 12 31 23 59 0) = None /\
  _on_tomorrow_btn_clicked (host := linux) Py.fromisoformat
    (Py.mk_datetime 9999 12 31 23 59 0) shown
  = (Raise OverflowError, shown).
Proof.
  split; [reflexivity | split; [reflexivity|]].
  exact (proj2 (tomorrow_on_the_last_day (host := linux)
                  (Py.mk_datetime 9999 12 31 23 59 0) shown eq_refl eq_refl)).
Defined.

Lemma stored_string_follows_sub_controls_witness :
  renderings_agree linux /\
  (get_datetime
     (session (host := linux) Py.fromisoformat
        [SetDateTime a_monday "0999-01-15"; Edit (EditMinutes 30)]
        (init a_monday)) = "" \/
   get_datetime
     (session (host := linux) Py.fromisoformat
        [SetDateTime a_monday "0999-01-15"; Edit (EditMinutes 30)]
        (init a_monday))
   = spec_stamp (host := linux)
       (session (host := linux) Py.fromisoformat
          [SetDateTime a_monday "0999-01-15"; Edit (EditMinutes 30)]
          (init a_monday))).
Proof.
  split; [exact linux_renderings_agree|].
  exact (stored_string_follows_sub_controls (host := linux) Py.fromisoformat
           [SetDateTime a_monday "0999-01-15"; Edit (EditMinutes 30)] a_monday
           linux_renderings_agree fromisoformat_valid).
Defined.
